(** * hello-inference: the upload page of [apps/www]

  A shallow embedding of [apps/www/app/page.tsx]: the zod schemas that
  guard the page's boundaries, the three event handlers
  ([onFileChange], [onUpload], [checkHealth]) and the values derived
  at render time ([baseUrl], [videoUrl]).

  Conventions.
  - A JavaScript string is a [string]; the only characters the page
    inspects are ASCII, and neither [startsWith], [endsWith] nor the
    regular expression [/\/$/] can match inside a multi-unit
    character.
  - A JavaScript number is an IEEE 754 binary64 value, [spec_float].
  - React state is a record; a handler is the list of effects it
    performs, in program order: calls of the state setters and calls
    of [fetch].  Running the list against a state gives the state of
    the next render.
  - A promise that rejects, and a [throw], is the left injection of a
    sum; [try]/[catch] is a match on it. *)

From Stdlib Require Import List String Ascii Bool NArith ZArith Lia.
From Stdlib Require Import SpecFloat DecimalString.
Import ListNotations.

Local Open Scope string_scope.
Local Open Scope list_scope.

(* ================================================================= *)
(** ** JavaScript strings *)

Module JsString.

(** [s.startsWith(p)] *)
Definition startsWith (s p : string) : bool := String.prefix p s.

(** [s.endsWith(suf)]: the last [suf.length] units of [s] are [suf]. *)
Definition endsWith (s suf : string) : bool :=
  (String.length suf <=? String.length s)%nat
  && String.eqb
       (substring (String.length s - String.length suf) (String.length suf) s)
       suf.

Definition isEmpty (s : string) : bool :=
  match s with EmptyString => true | String _ _ => false end.

(** [s.replace(/\/$/, "")].  The pattern has no flag, so [$] only
    matches at the end of the input and at most one match is
    replaced: the scan goes left to right and deletes a slash that is
    the last unit. *)
Fixpoint replaceTrailingSlash (s : string) : string :=
  match s with
  | EmptyString => EmptyString
  | String c rest =>
      if Ascii.eqb c "/"%char && isEmpty rest then EmptyString
      else String c (replaceTrailingSlash rest)
  end.

(** [`${n}`] for a non-negative integer. *)
Definition ofN (n : N) : string := NilEmpty.string_of_uint (N.to_uint n).

End JsString.

(* ================================================================= *)
(** ** JavaScript numbers *)

Module JsNumber.

Definition t := spec_float.

Definition zero : t := S754_zero false.
Definition Infinity : t := S754_infinity false.

Definition isNaN (x : t) : bool :=
  match x with S754_nan => true | _ => false end.

(** [Number.isFinite] *)
Definition isFinite (x : t) : bool :=
  match x with
  | S754_zero _ | S754_finite _ _ _ => true
  | S754_infinity _ | S754_nan => false
  end.

(** [Number.isInteger]: finite, and [m * 2^e] has no fractional part. *)
Definition isInteger (x : t) : bool :=
  match x with
  | S754_zero _ => true
  | S754_finite _ m e =>
      (0 <=? e)%Z || (Z.pos m mod 2 ^ (- e) =? 0)%Z
  | S754_infinity _ | S754_nan => false
  end.

(** [x < y] *)
Definition lt (x y : t) : bool := SFltb x y.
(** [x <= y] *)
Definition le (x y : t) : bool := SFleb x y.

(** The number a decimal literal [m]e[e] with [0 <= e] denotes, as
    [JSON.parse] computes it: the integer [m * 10^e] rounded to the
    nearest binary64 value. *)
Definition ofDecimal (m : Z) (e : Z) : t :=
  binary_normalize 53 1024 (m * 10 ^ e) 0 false.

End JsNumber.

(* ================================================================= *)
(** ** JSON values, as [res.json()] returns them *)

#[local] Set Warnings "-register-all".

Inductive JSON : Type :=
| JNull
| JBool (b : bool)
| JNumber (x : JsNumber.t)
| JString (s : string)
| JArray (items : list JSON)
| JObject (props : list (string * JSON)).

(** [obj[key]] on a parsed object; [None] is [undefined]. *)
Fixpoint getProp (key : string) (props : list (string * JSON)) : option JSON :=
  match props with
  | [] => None
  | (k, v) :: rest => if String.eqb k key then Some v else getProp key rest
  end.

(* ================================================================= *)
(** ** The part of zod (version 3) the page uses

  [parsed.error.errors] in [onFileChange] is the version 3 interface
  of [ZodError].  In that version [z.number()] refuses [NaN] and
  accepts the infinities unless [.finite()] is asked for. *)

Module z.

(** What a schema is given: a value, or [undefined]. *)
Definition Input := option JSON.

(** [schema.safeParse(v)]: [Some data] when [success] is true. *)
Definition Schema (A : Type) := Input -> option A.

Definition success {A} (r : option A) : bool :=
  match r with Some _ => true | None => false end.

Inductive NumberCheck :=
| int
| min (value : JsNumber.t) (inclusive : bool).

(** [.nonnegative()] *)
Definition nonnegative : NumberCheck := min JsNumber.zero true.

Definition numberCheck (c : NumberCheck) (x : JsNumber.t) : bool :=
  match c with
  | int => JsNumber.isInteger x
  | min v inclusive =>
      let tooSmall := if inclusive then JsNumber.lt x v else JsNumber.le x v in
      negb tooSmall
  end.

(** [z.number()] followed by its checks. *)
Definition number (checks : list NumberCheck) : Schema JsNumber.t :=
  fun input =>
    match input with
    | Some (JNumber x) =>
        if JsNumber.isNaN x then None
        else if forallb (fun c => numberCheck c x) checks then Some x
        else None
    | _ => None
    end.

(** [z.string().min(n)] *)
Definition string_min (n : nat) : Schema string :=
  fun input =>
    match input with
    | Some (JString s) => if (String.length s <? n)%nat then None else Some s
    | _ => None
    end.

(** [z.literal(v)] for a string [v] *)
Definition literal (v : string) : Schema string :=
  fun input =>
    match input with
    | Some (JString s) => if String.eqb s v then Some s else None
    | _ => None
    end.

(** [z.object({...})]: the input must be an object (not [null], not
    an array); [fields] parses the declared keys, the others are
    dropped. *)
Definition object {A} (fields : list (string * JSON) -> option A) : Schema A :=
  fun input =>
    match input with
    | Some (JObject props) => fields props
    | _ => None
    end.

(** One declared key of an object schema. *)
Definition field {A} (key : string) (s : Schema A)
           (props : list (string * JSON)) : option A :=
  s (getProp key props).

(** A schema with issue messages: [[]] when [success] is true,
    otherwise [error.errors] mapped to their messages. *)
Definition Refined (A : Type) := A -> list string.

(** [z.instanceof(C)] on a value that is a [C]. *)
Definition instanceof {A} : Refined A := fun _ => [].

(** [inner.refine(check, { message })]: the inner schema first; the
    refinement runs as well unless the inner issue is fatal (a
    refinement's never is) and adds its message when [check] fails. *)
Definition refine {A} (inner : Refined A) (check : A -> bool)
           (message : string) : Refined A :=
  fun x => inner x ++ (if check x then [] else [message]).

End z.

Notation "x <- e ;; k" :=
  (match e with Some x => k | None => None end)
  (at level 61, e at next level, right associativity).

(* ================================================================= *)
(** ** The schemas of [page.tsx] *)

Definition MAX_BYTES : N := 10 * 1024 * 1024.

Record Metadata := {
  width : JsNumber.t;
  height : JsNumber.t;
  durationSeconds : JsNumber.t;
  frameRate : JsNumber.t
}.

Definition MetadataSchema : z.Schema Metadata :=
  z.object (fun o =>
    w <- z.field "width" (z.number [z.int; z.nonnegative]) o ;;
    h <- z.field "height" (z.number [z.int; z.nonnegative]) o ;;
    d <- z.field "durationSeconds" (z.number [z.nonnegative]) o ;;
    r <- z.field "frameRate" (z.number [z.nonnegative]) o ;;
    Some {| width := w; height := h; durationSeconds := d; frameRate := r |}).

Record AnalyzeResponse := {
  id : string;
  metadata : Metadata
}.

Definition AnalyzeResponseSchema : z.Schema AnalyzeResponse :=
  z.object (fun o =>
    i <- z.field "id" (z.string_min 1) o ;;
    m <- z.field "metadata" MetadataSchema o ;;
    Some {| id := i; metadata := m |}).

Record HealthResponse := { status : string }.

Definition HealthResponseSchema : z.Schema HealthResponse :=
  z.object (fun o =>
    s <- z.field "status" (z.literal "ok") o ;;
    Some {| status := s |}).

(** The three attributes of a DOM [File] the page reads. *)
Record File := {
  name : string;
  type : string;
  size : N
}.

Definition sizeMessage : string := "Video must be 10MB or less.".
Definition typeMessage : string := "Please upload a video file.".

Definition sizeCheck (file : File) : bool := (size file <=? MAX_BYTES)%N.

Definition typeCheck (file : File) : bool :=
  JsString.startsWith (type file) "video/"
  || JsString.endsWith (name file) ".mp4".

Definition FileSchema : z.Refined File :=
  z.refine (z.refine z.instanceof sizeCheck sizeMessage) typeCheck typeMessage.

(* ================================================================= *)
(** ** [fetch] *)

(** What a rejected promise carries: an [Error] with its message, or
    some other value. *)
Inductive Thrown :=
| ErrorInstance (message : string)
| OtherValue.

Definition Attempt (A : Type) : Type := Thrown + A.

Inductive Method := GET | POST.

Record Request := {
  url : string;
  method : Method;
  formFile : option File;   (* the [file] field of the multipart body *)
  noStore : bool            (* [cache: "no-store"] *)
}.

Record Response := {
  statusCode : N;
  text : Attempt string;    (* [await res.text()] *)
  json : Attempt JSON       (* [await res.json()] *)
}.

(** [res.ok] *)
Definition ok (res : Response) : bool :=
  (200 <=? statusCode res)%N && (statusCode res <=? 299)%N.

(** The other side of the wire: what [await fetch(req)] gives. *)
Definition Network := Request -> Attempt Response.

(* ================================================================= *)
(** ** The component [Home] *)

Definition Date := N.

Record State := {
  file : option File;
  error : option string;
  loading : bool;
  response : option AnalyzeResponse;
  isModalUp : bool;
  isChecking : bool;
  lastCheckedAt : option Date
}.

Definition initialState : State := {|
  file := None;
  error := None;
  loading := false;
  response := None;
  isModalUp := false;
  isChecking := false;
  lastCheckedAt := None
|}.

Inductive Effect :=
| setFile (v : option File)
| setError (v : option string)
| setLoading (v : bool)
| setResponse (v : option AnalyzeResponse)
| setIsModalUp (v : bool)
| setIsChecking (v : bool)
| setLastCheckedAt (v : option Date)
| fetch (req : Request).

Definition perform (st : State) (e : Effect) : State :=
  match e with
  | setFile v =>
      {| file := v; error := error st; loading := loading st;
         response := response st; isModalUp := isModalUp st;
         isChecking := isChecking st; lastCheckedAt := lastCheckedAt st |}
  | setError v =>
      {| file := file st; error := v; loading := loading st;
         response := response st; isModalUp := isModalUp st;
         isChecking := isChecking st; lastCheckedAt := lastCheckedAt st |}
  | setLoading v =>
      {| file := file st; error := error st; loading := v;
         response := response st; isModalUp := isModalUp st;
         isChecking := isChecking st; lastCheckedAt := lastCheckedAt st |}
  | setResponse v =>
      {| file := file st; error := error st; loading := loading st;
         response := v; isModalUp := isModalUp st;
         isChecking := isChecking st; lastCheckedAt := lastCheckedAt st |}
  | setIsModalUp v =>
      {| file := file st; error := error st; loading := loading st;
         response := response st; isModalUp := v;
         isChecking := isChecking st; lastCheckedAt := lastCheckedAt st |}
  | setIsChecking v =>
      {| file := file st; error := error st; loading := loading st;
         response := response st; isModalUp := isModalUp st;
         isChecking := v; lastCheckedAt := lastCheckedAt st |}
  | setLastCheckedAt v =>
      {| file := file st; error := error st; loading := loading st;
         response := response st; isModalUp := isModalUp st;
         isChecking := isChecking st; lastCheckedAt := v |}
  | fetch _ => st
  end.

(** The state of the next render. *)
Definition run (effects : list Effect) (st : State) : State :=
  fold_left perform effects st.

(** The requests that went out. *)
Fixpoint requests (effects : list Effect) : list Request :=
  match effects with
  | [] => []
  | fetch req :: rest => req :: requests rest
  | _ :: rest => requests rest
  end.

(** [process.env.NEXT_PUBLIC_MODAL_BASE_URL ?? ""], then the [replace]. *)
Definition baseUrl (env : option string) : string :=
  let raw := match env with Some v => v | None => "" end in
  JsString.replaceTrailingSlash raw.

Definition healthUrl (base : string) : string := base ++ "/health".
Definition analyzeUrl (base : string) : string := base ++ "/analyze".
Definition videoUrlOf (base : string) (i : string) : string :=
  base ++ "/video/" ++ i.

Definition videoUrl (base : string) (st : State) : option string :=
  match response st with
  | Some r => Some (videoUrlOf base (id r))
  | None => None
  end.

(** [FileSchema.safeParse(selected)]: the messages of [error.errors];
    [success] is true when there is none. *)
Definition safeParseFile (selected : File) : list string := FileSchema selected.

Arguments safeParseFile : simpl never.

Definition parseSuccess (issues : list string) : bool :=
  match issues with [] => true | _ :: _ => false end.

(** [onFileChange], given [event.target.files?.[0] ?? null]. *)
Definition onFileChange (selected : option File) : list Effect :=
  [setError None; setResponse None]
  ++ match selected with
     | None => [setFile None]
     | Some f =>
         let parsed := safeParseFile f in
         if negb (parseSuccess parsed)
         then [setFile None; setError (Some (hd "Invalid file." parsed))]
         else [setFile (Some f)]
     end.

Definition bind {A B} (a : Attempt A) (k : A -> Attempt B) : Attempt B :=
  match a with inl t => inl t | inr x => k x end.

Notation "'await' x <- e ; k" := (bind e (fun x => k))
  (at level 10, x name, e at level 100, k at level 200).

(** The body of the [try] block of [onUpload]. *)
Definition analyze (net : Network) (req : Request) : Attempt AnalyzeResponse :=
  await res <- net req ;
  if negb (ok res) then
    await body <- text res ;
    inl (ErrorInstance
           (if JsString.isEmpty body
            then "Upload failed with status " ++ JsString.ofN (statusCode res)
            else body))
  else
    await body <- json res ;
    match AnalyzeResponseSchema (Some body) with
    | None => inl (ErrorInstance "Modal response failed validation.")
    | Some data => inr data
    end.

Definition analyzeRequest (base : string) (f : File) : Request :=
  {| url := analyzeUrl base; method := POST; formFile := Some f; noStore := false |}.

(** [onUpload], in a render where the base URL is [base] and the
    selected file is [selected]. *)
Definition onUpload (base : string) (selected : option File) (net : Network)
  : list Effect :=
  match selected with
  | None => []
  | Some f =>
      if JsString.isEmpty base
      then [setError (Some "Missing NEXT_PUBLIC_MODAL_BASE_URL env var.")]
      else
        let req := analyzeRequest base f in
        [setLoading true; setError None; setResponse None; fetch req]
        ++ match analyze net req with
           | inr data => [setResponse (Some data)]
           | inl err =>
               let message :=
                 match err with
                 | ErrorInstance m => m
                 | OtherValue => "Upload failed."
                 end in
               [setError (Some message)]
           end
        ++ [setLoading false]
  end.

Definition healthRequest (base : string) : Request :=
  {| url := healthUrl base; method := GET; formFile := None; noStore := true |}.

(** The body of the [try] block of [checkHealth]: [parsed.success]. *)
Definition health (net : Network) (req : Request) : Attempt bool :=
  await res <- net req ;
  if negb (ok res) then inl (ErrorInstance "Health check failed")
  else
    await body <- json res ;
    inr (z.success (HealthResponseSchema (Some body))).

(** [checkHealth]; [isMounted] is the flag when the request settles,
    [now] is [new Date()]. *)
Definition checkHealth (base : string) (isMounted : bool) (now : Date)
           (net : Network) : list Effect :=
  let req := healthRequest base in
  [setIsChecking true; fetch req]
  ++ match health net req with
     | inr up => if isMounted then [setIsModalUp up] else []
     | inl _ => if isMounted then [setIsModalUp false] else []
     end
  ++ (if isMounted then [setLastCheckedAt (Some now); setIsChecking false] else []).

(** The effect that polls: without a base URL it only marks the
    service down. *)
Definition healthEffect (base : string) (isMounted : bool) (now : Date)
           (net : Network) : list Effect :=
  if JsString.isEmpty base then [setIsModalUp false]
  else checkHealth base isMounted now net.

(** What can happen to the page. *)
Inductive Event :=
| FileChange (selected : option File)
| Upload (net : Network)
| HealthPoll (now : Date) (net : Network).

Definition handle (env : option string) (st : State) (ev : Event) : list Effect :=
  match ev with
  | FileChange selected => onFileChange selected
  | Upload net => onUpload (baseUrl env) (file st) net
  | HealthPoll now net => healthEffect (baseUrl env) true now net
  end.

Definition step (env : option string) (st : State) (ev : Event) : State :=
  run (handle env st ev) st.

Inductive reachable (env : option string) : State -> Prop :=
| reach_init : reachable env initialState
| reach_step st ev : reachable env st -> reachable env (step env st ev).

(** What the page shows. *)
Definition shownError (st : State) : option string :=
  match error st with
  | Some m => if JsString.isEmpty m then None else Some m
  | None => None
  end.

Definition shownMetadata (st : State) : option Metadata :=
  match response st with
  | Some r => Some (metadata r)
  | None => None
  end.

(* ================================================================= *)
(** ** Predicates used to state the properties *)

(** Neither [NaN] nor below zero. *)
Definition nonNegative (x : JsNumber.t) : bool :=
  negb (JsNumber.isNaN x) && negb (JsNumber.lt x JsNumber.zero).

(** A finite, integral number that is not below zero. *)
Definition naturalNumber (x : JsNumber.t) : bool :=
  JsNumber.isFinite x && JsNumber.isInteger x && nonNegative x.

(** All four fields finite and non-negative, [width] and [height]
    integers. *)
Definition finiteMetadata (m : Metadata) : bool :=
  naturalNumber (width m) && naturalNumber (height m)
  && (JsNumber.isFinite (durationSeconds m) && nonNegative (durationSeconds m))
  && (JsNumber.isFinite (frameRate m) && nonNegative (frameRate m)).

(** What [MetadataSchema] guarantees. *)
Definition acceptedMetadata (m : Metadata) : bool :=
  naturalNumber (width m) && naturalNumber (height m)
  && nonNegative (durationSeconds m) && nonNegative (frameRate m).

(** The metadata object [mo] carries exactly the numbers of [m]. *)
Definition carries (mo : list (string * JSON)) (m : Metadata) : Prop :=
  getProp "width" mo = Some (JNumber (width m))
  /\ getProp "height" mo = Some (JNumber (height m))
  /\ getProp "durationSeconds" mo = Some (JNumber (durationSeconds m))
  /\ getProp "frameRate" mo = Some (JNumber (frameRate m)).

(** The response contract of [POST /analyze], in the words of the
    interface description: a non-empty string [id] and a [metadata]
    object with integer [width] and [height] and numeric
    [durationSeconds] and [frameRate]. *)
Module Contract.






End Contract.

Definition validationFailed : string := "Modal response failed validation.".

(** Sample data.  [overflowBody] is what [res.json()] returns for the body
    [{"id":"a","metadata":{"width":1920,"height":1080,
      "durationSeconds":1e999,"frameRate":30}}]. *)
Definition sampleFile : File :=
  {| name := "clip.mp4"; type := "video/mp4"; size := 4096 |}.

Definition metadataProps (m : Metadata) : list (string * JSON) :=
  [("width", JNumber (width m)); ("height", JNumber (height m));
   ("durationSeconds", JNumber (durationSeconds m));
   ("frameRate", JNumber (frameRate m))].

Definition bodyProps (i : string) (m : Metadata) : list (string * JSON) :=
  [("id", JString i); ("metadata", JObject (metadataProps m))].

Definition sampleMetadata : Metadata :=
  {| width := JsNumber.ofDecimal 1920 0;
     height := JsNumber.ofDecimal 1080 0;
     durationSeconds := JsNumber.ofDecimal 12 0;
     frameRate := JsNumber.ofDecimal 30 0 |}.

Definition overflowMetadata : Metadata :=
  {| width := JsNumber.ofDecimal 1920 0;
     height := JsNumber.ofDecimal 1080 0;
     durationSeconds := JsNumber.ofDecimal 1 999;
     frameRate := JsNumber.ofDecimal 30 0 |}.

Definition sampleBody : JSON := JObject (bodyProps "a1b2" sampleMetadata).
Definition overflowBody : JSON := JObject (bodyProps "a" overflowMetadata).
Definition emptyIdBody : JSON := JObject (bodyProps "" sampleMetadata).

(** A server that answers every request with status [code] and body [body]. *)
Definition respond (code : N) (body : JSON) : Network :=
  fun _ => inr {| statusCode := code; text := inr ""; json := inr body |}.

Definition sampleEnv : option string := Some "https://demo.modal.run/".

(* ================================================================= *)
(** ** The handlers at their [await] points

    [onUpload] and [checkHealth] are [async]: what they do before the
    first [await] happens during the event, the rest once the request
    has settled, and other events may come in between.  No setter is
    called between [await fetch(...)] and [await res.json()] or
    [await res.text()], so one settling step stands for both. *)

Definition missingBaseUrl : string := "Missing NEXT_PUBLIC_MODAL_BASE_URL env var.".

(** [onUpload] up to [await fetch(...)]. *)
Definition uploadStart (base : string) (selected : option File) : list Effect :=
  match selected with
  | None => []
  | Some f =>
      if JsString.isEmpty base then [setError (Some missingBaseUrl)]
      else [setLoading true; setError None; setResponse None;
            fetch (analyzeRequest base f)]
  end.

(** [onUpload] from the moment the request [req] has settled. *)
Definition uploadSettle (req : Request) (outcome : Attempt Response) : list Effect :=
  match analyze (fun _ => outcome) req with
  | inr data => [setResponse (Some data)]
  | inl err =>
      let message :=
        match err with
        | ErrorInstance m => m
        | OtherValue => "Upload failed."
        end in
      [setError (Some message)]
  end
  ++ [setLoading false].

(** [checkHealth] up to [await fetch(...)]. *)
Definition healthStart (base : string) : list Effect :=
  [setIsChecking true; fetch (healthRequest base)].

(** [checkHealth] from the moment the request has settled. *)
Definition healthSettle (req : Request) (outcome : Attempt Response)
           (isMounted : bool) (now : Date) : list Effect :=
  match health (fun _ => outcome) req with
  | inr up => if isMounted then [setIsModalUp up] else []
  | inl _ => if isMounted then [setIsModalUp false] else []
  end
  ++ (if isMounted then [setLastCheckedAt (Some now); setIsChecking false] else []).

(** The message the [catch] of [onUpload] shows for a thrown value. *)
Definition thrownMessage (t : Thrown) : string :=
  match t with
  | ErrorInstance m => m
  | OtherValue => "Upload failed."
  end.


(** A request that has been sent and has not settled yet. *)
Inductive Pending :=
| pendingUpload (req : Request)
| pendingHealth (req : Request).

Definition isUpload (p : Pending) : bool :=
  match p with pendingUpload _ => true | pendingHealth _ => false end.

Definition uploadsInFlight (l : list Pending) : nat :=
  List.length (filter isUpload l).

Definition dropNth {A} (n : nat) (l : list A) : list A :=
  firstn n l ++ skipn (S n) l.

(** The page between two events: the rendered state and the requests
    in flight, oldest first. *)
Record Page := {
  current : State;
  inFlight : list Pending
}.

Definition initialPage : Page := {| current := initialState; inFlight := [] |}.

(** What can happen to the page, one event-loop turn at a time. *)
Inductive Action :=
| select (selected : option File)       (* the file input changes *)
| click                                 (* [onUpload] is called *)
| poll                                  (* the effect runs, or the interval fires *)
| settle (n : nat) (outcome : Attempt Response) (now : Date).
                                        (* the [n]th request in flight settles *)

Definition act (env : option string) (p : Page) (a : Action) : Page :=
  let base := baseUrl env in
  match a with
  | select selected =>
      {| current := run (onFileChange selected) (current p);
         inFlight := inFlight p |}
  | click =>
      let effects := uploadStart base (file (current p)) in
      {| current := run effects (current p);
         inFlight := inFlight p ++ map pendingUpload (requests effects) |}
  | poll =>
      let effects :=
        if JsString.isEmpty base then [setIsModalUp false] else healthStart base in
      {| current := run effects (current p);
         inFlight := inFlight p ++ map pendingHealth (requests effects) |}
  | settle n outcome now =>
      match nth_error (inFlight p) n with
      | None => p
      | Some (pendingUpload req) =>
          {| current := run (uploadSettle req outcome) (current p);
             inFlight := dropNth n (inFlight p) |}
      | Some (pendingHealth req) =>
          {| current := run (healthSettle req outcome true now) (current p);
             inFlight := dropNth n (inFlight p) |}
      end
  end.

Inductive reachablePage (env : option string) : Page -> Prop :=
| page_init : reachablePage env initialPage
| page_act p a : reachablePage env p -> reachablePage env (act env p a).

(** A file the validator lets through. *)
Definition validFile (f : File) : Prop :=
  (size f <= 10485760)%N
  /\ ((exists rest, type f = ("video/" ++ rest)%string)
      \/ (exists front, name f = (front ++ ".mp4")%string)).

(** What every page between two events satisfies. *)
Record pageInvariant (env : option string) (p : Page) : Prop := {
  inv_file :
    forall f, file (current p) = Some f -> safeParseFile f = [];
  inv_uploads :
    forall req, In (pendingUpload req) (inFlight p) ->
    exists f, req = analyzeRequest (baseUrl env) f /\ safeParseFile f = [];
  inv_polls :
    forall req, In (pendingHealth req) (inFlight p) ->
    req = healthRequest (baseUrl env);
  inv_response :
    forall r, response (current p) = Some r ->
    exists body, AnalyzeResponseSchema (Some body) = Some r;
  inv_unconfigured :
    JsString.isEmpty (baseUrl env) = true ->
    inFlight p = [] /\ isModalUp (current p) = false
    /\ response (current p) = None
}.

(* ================================================================= *)
(** ** Properties of the string operations *)

Section StringFacts.

Lemma string_length_app (a b : string) :
  String.length (a ++ b)%string = String.length a + String.length b.
Proof. induction a as [|c a IH]; simpl; [reflexivity | now rewrite IH]. Qed.

Lemma string_app_empty_r (a : string) : (a ++ "")%string = a.
Proof. induction a as [|c a IH]; simpl; [reflexivity | now rewrite IH]. Qed.

Lemma string_app_assoc (a b c : string) : ((a ++ b) ++ c = a ++ (b ++ c))%string.
Proof. induction a as [|x a IH]; simpl; [reflexivity | now rewrite IH]. Qed.

Lemma substring_all (s : string) : substring 0 (String.length s) s = s.
Proof. induction s as [|c s IH]; simpl; [reflexivity | now rewrite IH]. Qed.

Lemma substring_skip (p s : string) (n : nat) :
  substring (String.length p) n (p ++ s)%string = substring 0 n s.
Proof. induction p as [|c p IH]; simpl; [reflexivity | exact IH]. Qed.

Lemma substring_split (s : string) (k : nat) :
  k <= String.length s ->
  (substring 0 k s ++ substring k (String.length s - k) s)%string = s.
Proof.
  revert k; induction s as [|c s IH]; intros k Hk.
  - destruct k; simpl in *; [reflexivity | lia].
  - destruct k as [|k].
    + simpl. now rewrite substring_all.
    + simpl in *. f_equal. apply IH. lia.
Qed.

(** [startsWith] holds exactly of the strings that begin with the prefix. *)
Lemma startsWith_iff (s p : string) :
  JsString.startsWith s p = true <-> exists rest, s = (p ++ rest)%string.
Proof.
  unfold JsString.startsWith. revert s.
  induction p as [|c p IH]; intros s.
  - split; [intros _; exists s; reflexivity | intros _; now destruct s].
  - destruct s as [|d s]; simpl.
    + split; [discriminate | intros [rest H]; discriminate].
    + destruct (ascii_dec c d) as [->|Hne].
      * rewrite IH. split; intros [rest H]; exists rest.
        -- now rewrite H.
        -- now injection H.
      * split; [discriminate | intros [rest H]; injection H; congruence].
Qed.

(** [endsWith] holds exactly of the strings that finish with the suffix. *)
Lemma endsWith_iff (s suf : string) :
  JsString.endsWith s suf = true <-> exists front, s = (front ++ suf)%string.
Proof.
  unfold JsString.endsWith. rewrite andb_true_iff, Nat.leb_le, String.eqb_eq.
  split.
  - intros [Hlen Hsub].
    exists (substring 0 (String.length s - String.length suf) s).
    pose proof (substring_split s (String.length s - String.length suf)) as E.
    replace (String.length s - (String.length s - String.length suf))
      with (String.length suf) in E by lia.
    rewrite Hsub in E. symmetry. apply E. lia.
  - intros [front ->]. rewrite string_length_app. split; [lia|].
    replace (String.length front + String.length suf - String.length suf)
      with (String.length front) by lia.
    rewrite substring_skip. apply substring_all.
Qed.

Lemma isEmpty_app_slash (s : string) : JsString.isEmpty (s ++ "/")%string = false.
Proof. now destruct s. Qed.

(** The [replace] removes a final slash, and only that one. *)
Lemma replaceTrailingSlash_app (s : string) :
  JsString.replaceTrailingSlash (s ++ "/")%string = s.
Proof.
  induction s as [|c s IH]; [reflexivity|].
  cbn [append JsString.replaceTrailingSlash].
  now rewrite isEmpty_app_slash, andb_false_r, IH.
Qed.

(** ... and leaves alone a string that does not end in one. *)
Lemma replaceTrailingSlash_id (s : string) :
  JsString.endsWith s "/" = false -> JsString.replaceTrailingSlash s = s.
Proof.
  induction s as [|c s IH]; intros H; [reflexivity|].
  cbn [JsString.replaceTrailingSlash].
  destruct s as [|d s].
  - cbn in H. cbn [JsString.isEmpty]. rewrite andb_true_r.
    destruct (Ascii.eqb c "/") eqn:E; [|reflexivity].
    apply Ascii.eqb_eq in E. subst c. discriminate H.
  - cbn [JsString.isEmpty]. rewrite andb_false_r. f_equal. apply IH.
    destruct (JsString.endsWith (String d s) "/") eqn:E; [|reflexivity].
    apply endsWith_iff in E. destruct E as [front E].
    assert (JsString.endsWith (String c (String d s)) "/" = true) as H'.
    { apply endsWith_iff. exists (String c front). simpl. now rewrite E. }
    congruence.
Qed.

End StringFacts.

(* ================================================================= *)
(** ** File selection *)

Lemma safeParseFile_eq (f : File) :
  safeParseFile f
  = (if sizeCheck f then [] else [sizeMessage])
    ++ (if typeCheck f then [] else [typeMessage]).
Proof. reflexivity. Qed.

Lemma sizeCheck_iff (f : File) :
  sizeCheck f = true <-> (size f <= 10485760)%N.
Proof. unfold sizeCheck. now rewrite N.leb_le. Qed.

Lemma messages_differ : sizeMessage <> typeMessage.
Proof. discriminate. Qed.

Lemma typeCheck_iff (f : File) :
  typeCheck f = true
  <-> (exists rest, type f = ("video/" ++ rest)%string)
      \/ (exists front, name f = (front ++ ".mp4")%string).
Proof.
  unfold typeCheck.
  now rewrite orb_true_iff, startsWith_iff, endsWith_iff.
Qed.

(** The four outcomes of the two refinements. *)
Lemma safeParseFile_cases (f : File) :
  (sizeCheck f = true /\ typeCheck f = true /\ safeParseFile f = [])
  \/ (sizeCheck f = true /\ typeCheck f = false
      /\ safeParseFile f = [typeMessage])
  \/ (sizeCheck f = false /\ typeCheck f = true
      /\ safeParseFile f = [sizeMessage])
  \/ (sizeCheck f = false /\ typeCheck f = false
      /\ safeParseFile f = [sizeMessage; typeMessage]).
Proof.
  rewrite safeParseFile_eq.
  destruct (sizeCheck f), (typeCheck f); cbn; tauto.
Qed.

Ltac file_cases f :=
  let Hs := fresh "Hsize" in
  let Ht := fresh "Htype" in
  let Hp := fresh "Hparse" in
  destruct (safeParseFile_cases f)
    as [(Hs & Ht & Hp) | [(Hs & Ht & Hp) | [(Hs & Ht & Hp) | (Hs & Ht & Hp)]]].

Lemma onFileChange_accept (f : File) :
  safeParseFile f = [] ->
  onFileChange (Some f) = [setError None; setResponse None; setFile (Some f)].
Proof. intros H. unfold onFileChange. now rewrite H. Qed.

Lemma onFileChange_reject (f : File) (m : string) (ms : list string) :
  safeParseFile f = m :: ms ->
  onFileChange (Some f)
  = [setError None; setResponse None; setFile None; setError (Some m)].
Proof. intros H. unfold onFileChange. now rewrite H. Qed.

(** C1: the validator rejects a file on size exactly when its size is
    above 10 * 1024 * 1024 = 10485760 bytes.  A file of at most that
    size passes the size check; a larger one is refused, the selection
    is dropped and the size message becomes the page's error. *)
Theorem C1_size_threshold_exact (f : File) (st : State) :
  MAX_BYTES = 10485760%N
  /\ (sizeCheck f = true <-> (size f <= 10485760)%N)
  /\ (In sizeMessage (safeParseFile f) <-> (10485760 < size f)%N)
  /\ ((10485760 < size f)%N
      <-> file (run (onFileChange (Some f)) st) = None
          /\ error (run (onFileChange (Some f)) st) = Some sizeMessage).
Proof.
  split; [reflexivity|]. split; [apply sizeCheck_iff|].
  pose proof messages_differ as Hne.
  assert (sizeCheck f = false <-> (10485760 < size f)%N) as Hgt.
  { unfold sizeCheck. change MAX_BYTES with 10485760%N. apply N.leb_gt. }
  split.
  - rewrite <- Hgt. file_cases f; rewrite Hparse, Hsize; cbn; split;
      try discriminate; try tauto; intros H; exfalso;
      repeat (destruct H as [H|H]; try congruence).
  - rewrite <- Hgt. file_cases f; rewrite Hsize.
    + rewrite (onFileChange_accept f Hparse). cbn.
      split; [discriminate | intros [H _]; discriminate].
    + rewrite (onFileChange_reject f _ _ Hparse). cbn.
      split; [discriminate | intros [_ H]; congruence].
    + rewrite (onFileChange_reject f _ _ Hparse). cbn. tauto.
    + rewrite (onFileChange_reject f _ _ Hparse). cbn. tauto.
Qed.

(** C3: the validator rejects a file on type exactly when its declared
    content type does not start with "video/" and its name does not
    end in the one extension the validator recognises, ".mp4"; a file
    with either property passes the type check. *)
Theorem C3_type_rejection (f : File) :
  (In typeMessage (safeParseFile f)
   <-> JsString.startsWith (type f) "video/" = false
       /\ JsString.endsWith (name f) ".mp4" = false)
  /\ (In typeMessage (safeParseFile f)
      <-> ~ (exists rest, type f = ("video/" ++ rest)%string)
          /\ ~ (exists front, name f = (front ++ ".mp4")%string))
  /\ (typeCheck f = true
      <-> (exists rest, type f = ("video/" ++ rest)%string)
          \/ (exists front, name f = (front ++ ".mp4")%string)).
Proof.
  pose proof messages_differ as Hne.
  assert (In typeMessage (safeParseFile f) <-> typeCheck f = false) as Hin.
  { file_cases f; rewrite Hparse, Htype; cbn; split;
      try discriminate; try tauto; intros H; exfalso;
      repeat (destruct H as [H|H]; try congruence). }
  split; [|split].
  - rewrite Hin. unfold typeCheck. apply orb_false_iff.
  - rewrite Hin. pose proof (typeCheck_iff f) as Ht.
    destruct (typeCheck f); split.
    + discriminate.
    + intros [A B]. exfalso. destruct Ht as [Ht _].
      destruct (Ht eq_refl); tauto.
    + intros _. split; intros H; assert (false = true) by (apply Ht; tauto);
        discriminate.
    + reflexivity.
  - apply typeCheck_iff.
Qed.

Example file_at_limit :
  safeParseFile {| name := "clip.mp4"; type := "video/mp4"; size := 10485760 |} = [].
Proof. reflexivity. Qed.

Example file_one_byte_over :
  safeParseFile {| name := "clip.mp4"; type := "video/mp4"; size := 10485761 |}
  = [sizeMessage].
Proof. reflexivity. Qed.

Example file_upper_case_extension :
  safeParseFile {| name := "CLIP.MP4"; type := ""; size := 1 |} = [typeMessage].
Proof. reflexivity. Qed.

Lemma onUpload_no_file (base : string) (net : Network) :
  onUpload base None net = [].
Proof. reflexivity. Qed.

(** C4: when a selected file fails validation, the page shows one of
    the validator's two messages, the selected file is cleared to
    null, [onUpload] returns at once when no file is set, and so an
    upload attempted afterwards performs nothing: no request goes out
    and the state is unchanged. *)
Theorem C4_rejected_file_no_upload
        (env : option string) (f : File) (st : State) (net : Network) :
  parseSuccess (safeParseFile f) = false ->
  let st' := step env st (FileChange (Some f)) in
  file st' = None
  /\ (shownError st' = Some sizeMessage \/ shownError st' = Some typeMessage)
  /\ (forall base, onUpload base None net = [])
  /\ handle env st' (Upload net) = []
  /\ requests (handle env st' (Upload net)) = []
  /\ step env st' (Upload net) = st'.
Proof.
  intros Hfail st'.
  assert (file st' = None
          /\ (shownError st' = Some sizeMessage
              \/ shownError st' = Some typeMessage)) as [Hfile Herr].
  { subst st'. unfold step, handle.
    file_cases f; rewrite Hparse in Hfail; try discriminate Hfail;
      rewrite (onFileChange_reject f _ _ Hparse); cbn; tauto. }
  split; [exact Hfile|]. split; [exact Herr|].
  split; [intros base; apply onUpload_no_file|].
  assert (handle env st' (Upload net) = []) as Hnone.
  { cbn [handle]. rewrite Hfile. apply onUpload_no_file. }
  split; [exact Hnone|]. split; [now rewrite Hnone|].
  unfold step. now rewrite Hnone.
Qed.

Lemma C4_witness :
  let f := {| name := "notes.txt"; type := "text/plain"; size := 12 |} in
  let st' := step (Some "https://modal.example/") initialState (FileChange (Some f)) in
  parseSuccess (safeParseFile f) = false
  /\ file st' = None
  /\ shownError st' = Some typeMessage
  /\ requests (handle (Some "https://modal.example/") st' (Upload (fun _ => inl OtherValue))) = [].
Proof.
  intros f st'.
  pose proof (C4_rejected_file_no_upload
                (Some "https://modal.example/") f initialState
                (fun _ => inl OtherValue) eq_refl) as H.
  cbv zeta in H. destruct H as (H1 & _ & _ & _ & H5 & _).
  split; [reflexivity|]. split; [exact H1|]. split; [reflexivity|exact H5].
Defined.

(** Every file selection begins by setting the error and the previous
    analyze response to null, before the file is looked at, and
    nothing later in the handler sets a response.  So the state the
    handler leaves has no response, and the only error in it is the
    one the new selection has just produced. *)
Lemma onFileChange_clears_first
        (selected : option File) (st : State) (base : string) :
  let st' := run (onFileChange selected) st in
  (exists rest,
      onFileChange selected = setError None :: setResponse None :: rest
      /\ forall v, ~ In (setResponse v) rest)
  /\ response st' = None
  /\ shownMetadata st' = None
  /\ videoUrl base st' = None
  /\ (error st' = None
      \/ exists f, selected = Some f
                   /\ parseSuccess (safeParseFile f) = false
                   /\ error st' = Some (hd "Invalid file." (safeParseFile f))).
Proof.
  intros st'. subst st'.
  destruct selected as [f|].
  - destruct (safeParseFile f) as [|m ms] eqn:Hparse.
    + rewrite (onFileChange_accept f Hparse). cbn.
      repeat split; try tauto.
      eexists; split; [reflexivity|].
      intros v [H|[]]; discriminate.
    + rewrite (onFileChange_reject f _ _ Hparse). cbn.
      repeat split.
      * eexists; split; [reflexivity|].
        intros v [H|[H|[]]]; discriminate.
      * right. exists f. rewrite Hparse. repeat split.
  - cbn. repeat split; try tauto.
    eexists; split; [reflexivity|].
    intros v [H|[]]; discriminate.
Qed.

(* ================================================================= *)
(** ** What the schemas accept *)

Lemma isInteger_isFinite (x : JsNumber.t) :
  JsNumber.isInteger x = true -> JsNumber.isFinite x = true.
Proof. now destruct x. Qed.

(** A number that is not below zero has a clear sign bit, or is a zero. *)
Lemma nonNegative_iff (x : JsNumber.t) :
  nonNegative x = true
  <-> (exists s, x = S754_zero s) \/ x = S754_infinity false
      \/ (exists m e, x = S754_finite false m e).
Proof.
  destruct x as [s|s| |s m e]; try destruct s; cbn; split;
    try discriminate; try (intros _; eauto; fail);
    intros [[s' H]|[H|[m' [e' H]]]]; discriminate.
Qed.

Lemma number_iff (checks : list z.NumberCheck) (v : z.Input) (x : JsNumber.t) :
  z.number checks v = Some x
  <-> v = Some (JNumber x)
      /\ JsNumber.isNaN x = false
      /\ forallb (fun c => z.numberCheck c x) checks = true.
Proof.
  unfold z.number. destruct v as [[| |y| | |]|]; try (split; [discriminate | intros [H _]; discriminate]).
  destruct (JsNumber.isNaN y) eqn:Enan.
  - split; [discriminate | intros (H & Hn & _); congruence].
  - destruct (forallb _ checks) eqn:Echecks.
    + split; [intros H; injection H as <-; auto | intros (H & _); congruence].
    + split; [discriminate | intros (H & _ & Hc); injection H as <-; congruence].
Qed.

Lemma natural_iff (v : z.Input) (x : JsNumber.t) :
  z.number [z.int; z.nonnegative] v = Some x
  <-> v = Some (JNumber x) /\ naturalNumber x = true.
Proof.
  rewrite number_iff. unfold naturalNumber, nonNegative. cbn.
  split.
  - intros (-> & Hn & Hc). split; [reflexivity|].
    rewrite andb_true_r in Hc. apply andb_true_iff in Hc as [Hi Hz].
    now rewrite (isInteger_isFinite _ Hi), Hi, Hn, Hz.
  - intros (-> & H). split; [reflexivity|].
    apply andb_true_iff in H as [H Hz]. apply andb_true_iff in H as [_ Hi].
    apply andb_true_iff in Hz as [Hn Hz]. apply negb_true_iff in Hn.
    rewrite andb_true_r. split; [exact Hn|].
    apply andb_true_iff. split; assumption.
Qed.

Lemma nonNegative_number_iff (v : z.Input) (x : JsNumber.t) :
  z.number [z.nonnegative] v = Some x
  <-> v = Some (JNumber x) /\ nonNegative x = true.
Proof.
  rewrite number_iff. unfold nonNegative. cbn.
  split.
  - intros (-> & Hn & Hc). split; [reflexivity|].
    rewrite andb_true_r in Hc. now rewrite Hn, Hc.
  - intros (-> & H). split; [reflexivity|].
    apply andb_true_iff in H as [H1 H2].
    rewrite andb_true_r. split; [now apply negb_true_iff | assumption].
Qed.

Lemma string_min_1_iff (v : z.Input) (s : string) :
  z.string_min 1 v = Some s <-> v = Some (JString s) /\ s <> "".
Proof.
  unfold z.string_min.
  destruct v as [[| | |t| |]|];
    try (split; [discriminate | intros [H _]; discriminate]).
  destruct t as [|c t]; cbn.
  - split; [discriminate | intros [H Hne]; congruence].
  - split; [intros H; injection H as <-; split; [reflexivity | discriminate]
           | intros [H _]; congruence].
Qed.

Lemma literal_iff (lit : string) (v : z.Input) (s : string) :
  z.literal lit v = Some s <-> v = Some (JString lit) /\ s = lit.
Proof.
  unfold z.literal.
  destruct v as [[| | |t| |]|];
    try (split; [discriminate | intros [H _]; discriminate]).
  destruct (String.eqb_spec t lit) as [->|Hne].
  - split; [intros H; injection H as <-; auto | intros [_ ->]; reflexivity].
  - split; [discriminate | intros [H _]; congruence].
Qed.

Lemma MetadataSchema_iff (v : z.Input) (m : Metadata) :
  MetadataSchema v = Some m
  <-> exists mo, v = Some (JObject mo) /\ carries mo m
                 /\ acceptedMetadata m = true.
Proof.
  unfold MetadataSchema, z.object, z.field, carries, acceptedMetadata.
  destruct v as [[| | | | |mo]|];
    try (split; [discriminate | intros (mo' & H & _); discriminate]).
  split.
  - destruct (z.number _ (getProp "width" mo)) as [w|] eqn:Ew; [|discriminate].
    destruct (z.number _ (getProp "height" mo)) as [h|] eqn:Eh; [|discriminate].
    destruct (z.number _ (getProp "durationSeconds" mo)) as [d|] eqn:Ed;
      [|discriminate].
    destruct (z.number _ (getProp "frameRate" mo)) as [r|] eqn:Er;
      [|discriminate].
    intros H. injection H as <-. cbn.
    apply natural_iff in Ew as [Ew Hw], Eh as [Eh Hh].
    apply nonNegative_number_iff in Ed as [Ed Hd], Er as [Er Hr].
    rewrite Hw, Hh, Hd, Hr.
    exists mo. repeat split; assumption.
  - intros (mo' & Hmo & (Hw & Hh & Hd & Hr) & Hacc). injection Hmo as <-.
    apply andb_true_iff in Hacc as [Hacc Ar].
    apply andb_true_iff in Hacc as [Hacc Ad].
    apply andb_true_iff in Hacc as [Aw Ah].
    assert (z.number [z.int; z.nonnegative] (getProp "width" mo)
            = Some (width m)) as -> by (apply natural_iff; auto).
    assert (z.number [z.int; z.nonnegative] (getProp "height" mo)
            = Some (height m)) as -> by (apply natural_iff; auto).
    assert (z.number [z.nonnegative] (getProp "durationSeconds" mo)
            = Some (durationSeconds m)) as ->
        by (apply nonNegative_number_iff; auto).
    assert (z.number [z.nonnegative] (getProp "frameRate" mo)
            = Some (frameRate m)) as ->
        by (apply nonNegative_number_iff; auto).
    now destruct m.
Qed.

Lemma AnalyzeResponseSchema_iff (body : JSON) (r : AnalyzeResponse) :
  AnalyzeResponseSchema (Some body) = Some r
  <-> exists o mo,
      body = JObject o
      /\ getProp "id" o = Some (JString (id r)) /\ id r <> ""
      /\ getProp "metadata" o = Some (JObject mo)
      /\ carries mo (metadata r)
      /\ acceptedMetadata (metadata r) = true.
Proof.
  unfold AnalyzeResponseSchema, z.object, z.field.
  destruct body as [| | | | |o];
    try (split; [discriminate | intros (o' & mo & H & _); discriminate]).
  split.
  - destruct (z.string_min 1 (getProp "id" o)) as [i|] eqn:Ei; [|discriminate].
    destruct (MetadataSchema (getProp "metadata" o)) as [m|] eqn:Em;
      [|discriminate].
    intros H. injection H as <-. cbn.
    apply string_min_1_iff in Ei as [Ei Hne].
    apply MetadataSchema_iff in Em as (mo & Emo & Hc & Hacc).
    exists o, mo. intuition.
  - intros (o' & mo & Ho & Hid & Hne & Hm & Hc & Hacc). injection Ho as <-.
    assert (z.string_min 1 (getProp "id" o) = Some (id r)) as ->
        by (apply string_min_1_iff; auto).
    assert (MetadataSchema (getProp "metadata" o) = Some (metadata r)) as ->
        by (apply MetadataSchema_iff; eauto).
    now destruct r.
Qed.

Lemma HealthResponseSchema_iff (body : JSON) :
  z.success (HealthResponseSchema (Some body)) = true
  <-> exists o, body = JObject o /\ getProp "status" o = Some (JString "ok").
Proof.
  unfold HealthResponseSchema, z.object, z.field.
  destruct body as [| | | | |o];
    try (split; [discriminate | intros (o' & H & _); discriminate]).
  destruct (z.literal "ok" (getProp "status" o)) as [s|] eqn:E; cbn.
  - apply literal_iff in E as [E _]. split; eauto.
  - split; [discriminate|]. intros (o' & Ho & Hs). injection Ho as <-.
    assert (z.literal "ok" (getProp "status" o) = Some "ok") as H
        by (apply literal_iff; auto).
    congruence.
Qed.


(* ================================================================= *)
(** ** Upload *)

Lemma onUpload_sent (base : string) (f : File) (net : Network) :
  JsString.isEmpty base = false ->
  onUpload base (Some f) net
  = [setLoading true; setError None; setResponse None;
     fetch (analyzeRequest base f)]
    ++ match analyze net (analyzeRequest base f) with
       | inr data => [setResponse (Some data)]
       | inl (ErrorInstance m) => [setError (Some m)]
       | inl OtherValue => [setError (Some "Upload failed.")]
       end
    ++ [setLoading false].
Proof.
  intros Hb. unfold onUpload. rewrite Hb.
  now destruct (analyze net (analyzeRequest base f)) as [[m|]|data].
Qed.

Lemma analyze_ok_json (net : Network) (req : Request) (res : Response) (body : JSON) :
  net req = inr res -> ok res = true -> json res = inr body ->
  analyze net req
  = match AnalyzeResponseSchema (Some body) with
    | None => inl (ErrorInstance validationFailed)
    | Some data => inr data
    end.
Proof.
  intros Hnet Hok Hjson. unfold analyze, bind. now rewrite Hnet, Hok, Hjson.
Qed.

(** The [try] block only succeeds with data the schema produced. *)
Lemma analyze_inr (net : Network) (req : Request) (data : AnalyzeResponse) :
  analyze net req = inr data ->
  exists res body,
    net req = inr res /\ ok res = true /\ json res = inr body
    /\ AnalyzeResponseSchema (Some body) = Some data.
Proof.
  unfold analyze, bind.
  destruct (net req) as [t|res]; [discriminate|].
  destruct (ok res) eqn:Hok; cbn [negb].
  - destruct (json res) as [t|body] eqn:Hjson; [discriminate|].
    destruct (AnalyzeResponseSchema (Some body)) as [d|] eqn:E; [|discriminate].
    intros H. injection H as <-. exists res, body. auto.
  - destruct (text res); discriminate.
Qed.

Lemma response_after_upload
      (base : string) (selected : option File) (net : Network) (st : State)
      (r : AnalyzeResponse) :
  response (run (onUpload base selected net) st) = Some r ->
  response st = Some r
  \/ exists body, AnalyzeResponseSchema (Some body) = Some r.
Proof.
  destruct selected as [f|]; [|cbn; auto].
  destruct (JsString.isEmpty base) eqn:Hb.
  - unfold onUpload. rewrite Hb. cbn. auto.
  - rewrite (onUpload_sent base f net Hb).
    destruct (analyze net (analyzeRequest base f)) as [[m|]|data] eqn:E;
      cbn; intros H; try discriminate H.
    injection H as <-. right.
    apply analyze_inr in E as (res & body & _ & _ & _ & E). eauto.
Qed.

Lemma response_after_health
      (base : string) (isMounted : bool) (now : Date) (net : Network) (st : State) :
  response (run (healthEffect base isMounted now net) st) = response st.
Proof.
  unfold healthEffect, checkHealth.
  destruct (JsString.isEmpty base); [reflexivity|].
  destruct (health net (healthRequest base)) as [t|up], isMounted; reflexivity.
Qed.

Lemma response_after_selection (selected : option File) (st : State) :
  response (run (onFileChange selected) st) = None.
Proof.
  destruct selected as [f|]; [|reflexivity].
  destruct (safeParseFile f) as [|m ms] eqn:E.
  - now rewrite (onFileChange_accept f E).
  - now rewrite (onFileChange_reject f _ _ E).
Qed.

(** Whatever response the page holds was produced by the schema. *)
Lemma reachable_response_parsed (env : option string) (st : State) :
  reachable env st ->
  forall r, response st = Some r ->
  exists body, AnalyzeResponseSchema (Some body) = Some r.
Proof.
  induction 1 as [|st ev Hreach IH]; intros r Hr.
  - discriminate.
  - unfold step in Hr. destruct ev as [selected|net|now net]; cbn [handle] in Hr.
    + rewrite response_after_selection in Hr. discriminate.
    + apply response_after_upload in Hr as [Hr|Hr]; auto.
    + rewrite response_after_health in Hr. auto.
Qed.

Section UploadAnswered.

Variables (env : option string) (st : State) (f : File) (net : Network).
Variables (res : Response) (body : JSON).

Hypothesis selected : file st = Some f.
Hypothesis configured : JsString.isEmpty (baseUrl env) = false.
Hypothesis answered : net (analyzeRequest (baseUrl env) f) = inr res.
Hypothesis success : ok res = true.
Hypothesis parsed : json res = inr body.

Lemma upload_effects :
  handle env st (Upload net)
  = [setLoading true; setError None; setResponse None;
     fetch (analyzeRequest (baseUrl env) f)]
    ++ match AnalyzeResponseSchema (Some body) with
       | Some data => [setResponse (Some data)]
       | None => [setError (Some validationFailed)]
       end
    ++ [setLoading false].
Proof.
  cbn [handle]. rewrite selected, (onUpload_sent _ f net configured).
  rewrite (analyze_ok_json net _ res body answered success parsed).
  now destruct (AnalyzeResponseSchema (Some body)).
Qed.


Lemma upload_valid_body (r : AnalyzeResponse) :
  AnalyzeResponseSchema (Some body) = Some r ->
  let st' := step env st (Upload net) in
  error st' = None
  /\ response st' = Some r
  /\ shownMetadata st' = Some (metadata r)
  /\ videoUrl (baseUrl env) st' = Some (videoUrlOf (baseUrl env) (id r))
  /\ loading st' = false.
Proof.
  intros Hacc st'. subst st'. unfold step. rewrite upload_effects, Hacc.
  cbn. repeat split.
Qed.

End UploadAnswered.

Example one_e999_is_infinite : JsNumber.ofDecimal 1 999 = JsNumber.Infinity.
Proof. vm_compute. reflexivity. Qed.

Example sampleBody_accepted :
  z.success (AnalyzeResponseSchema (Some sampleBody)) = true.
Proof. vm_compute. reflexivity. Qed.

Example emptyIdBody_rejected : AnalyzeResponseSchema (Some emptyIdBody) = None.
Proof. vm_compute. reflexivity. Qed.

Lemma carries_unique (mo : list (string * JSON)) (m m' : Metadata) :
  carries mo m -> carries mo m' -> m = m'.
Proof.
  intros (Hw & Hh & Hd & Hr) (Hw' & Hh' & Hd' & Hr').
  destruct m, m'; cbn in *. f_equal; congruence.
Qed.

(** C2, as the code has it: the metadata of an accepted /analyze
    response has a finite, integral, non-negative [width] and
    [height], and a [durationSeconds] and [frameRate] that are numbers
    other than [NaN] and not below zero (positive infinity is let
    through); a response whose metadata is otherwise is refused by the
    parse, and no state the page can reach holds one. *)
Theorem C2_accepted_metadata
        (env : option string) (st : State)
        (o mo : list (string * JSON)) (m : Metadata) (r : AnalyzeResponse) :
  getProp "metadata" o = Some (JObject mo) ->
  carries mo m ->
  (AnalyzeResponseSchema (Some (JObject o)) = Some r ->
   metadata r = m /\ acceptedMetadata m = true)
  /\ (acceptedMetadata m = false ->
      AnalyzeResponseSchema (Some (JObject o)) = None)
  /\ (reachable env st -> response st = Some r ->
      acceptedMetadata (metadata r) = true).
Proof.
  intros Hmeta Hcar.
  assert (forall r', AnalyzeResponseSchema (Some (JObject o)) = Some r' ->
                     metadata r' = m /\ acceptedMetadata m = true) as Hacc.
  { intros r' H.
    apply AnalyzeResponseSchema_iff in H
      as (o' & mo' & Ho & _ & _ & Hm' & Hc' & Ha).
    injection Ho as <-. rewrite Hmeta in Hm'. injection Hm' as <-.
    rewrite (carries_unique mo _ _ Hcar Hc'). auto. }
  split; [apply Hacc|]. split.
  - intros Hbad.
    destruct (AnalyzeResponseSchema (Some (JObject o))) as [r'|] eqn:E;
      [|reflexivity].
    destruct (Hacc r' eq_refl) as [_ Hgood]. congruence.
  - intros Hreach Hr.
    destruct (reachable_response_parsed env st Hreach r Hr) as [body Hb].
    apply AnalyzeResponseSchema_iff in Hb as (_ & _ & _ & _ & _ & _ & _ & Ha).
    exact Ha.
Qed.

Lemma C2_witness :
  exists r,
    AnalyzeResponseSchema (Some sampleBody) = Some r
    /\ acceptedMetadata (metadata r) = true.
Proof.
  eexists. split; [vm_compute; reflexivity|].
  refine (proj2 (proj1 (C2_accepted_metadata
                   None initialState
                   (bodyProps "a1b2" sampleMetadata)
                   (metadataProps sampleMetadata) sampleMetadata _
                   eq_refl _) _)).
  - repeat split.
  - vm_compute. reflexivity.
Defined.

(** C2, as stated, fails: the body whose [durationSeconds] is the
    literal [1e999] is accepted, its duration is not finite, and the
    page holds it as metadata after the upload. *)
Lemma C2_counterexample :
  let st := step sampleEnv initialState (FileChange (Some sampleFile)) in
  let st' := step sampleEnv st (Upload (respond 200 overflowBody)) in
  exists r,
    AnalyzeResponseSchema (Some overflowBody) = Some r
    /\ shownMetadata st' = Some (metadata r)
    /\ JsNumber.isFinite (durationSeconds (metadata r)) = false
    /\ finiteMetadata (metadata r) = false.
Proof.
  eexists. split; [vm_compute; reflexivity|].
  split; [vm_compute; reflexivity|].
  split; vm_compute; reflexivity.
Qed.





(** C7: after a successful upload the video URL is the base URL, then
    "/video/", then the [id] string of the response body, character
    for character. *)
Theorem C7_video_url_opaque_id
        (env : option string) (st : State) (f : File) (net : Network)
        (res : Response) (o : list (string * JSON)) (i : string)
        (r : AnalyzeResponse) :
  file st = Some f ->
  JsString.isEmpty (baseUrl env) = false ->
  net (analyzeRequest (baseUrl env) f) = inr res ->
  ok res = true ->
  json res = inr (JObject o) ->
  getProp "id" o = Some (JString i) ->
  AnalyzeResponseSchema (Some (JObject o)) = Some r ->
  id r = i
  /\ videoUrl (baseUrl env) (step env st (Upload net))
     = Some (baseUrl env ++ "/video/" ++ i)%string.
Proof.
  intros Hfile Hbase Hnet Hok Hjson Hid Hacc.
  assert (id r = i) as Hi.
  { apply AnalyzeResponseSchema_iff in Hacc as (o' & _ & Ho & Hid' & _).
    injection Ho as <-. congruence. }
  split; [exact Hi|].
  destruct (upload_valid_body env st f net res (JObject o)
              Hfile Hbase Hnet Hok Hjson r Hacc) as (_ & _ & _ & Hurl & _).
  cbv zeta in Hurl. rewrite Hurl, Hi. reflexivity.
Qed.

Lemma C7_witness :
  let st := step sampleEnv initialState (FileChange (Some sampleFile)) in
  videoUrl (baseUrl sampleEnv) (step sampleEnv st (Upload (respond 200 sampleBody)))
  = Some "https://demo.modal.run/video/a1b2".
Proof.
  intros st.
  refine (proj2 (C7_video_url_opaque_id
                   sampleEnv st sampleFile (respond 200 sampleBody)
                   {| statusCode := 200; text := inr ""; json := inr sampleBody |}
                   (bodyProps "a1b2" sampleMetadata) "a1b2"
                   {| id := "a1b2"; metadata := sampleMetadata |}
                   eq_refl eq_refl eq_refl eq_refl eq_refl eq_refl _)).
  vm_compute. reflexivity.
Defined.

(* ================================================================= *)
(** ** Health polling *)

Lemma isModalUp_after_check
      (base : string) (now : Date) (net : Network) (st : State) :
  isModalUp (run (checkHealth base true now net) st)
  = match health net (healthRequest base) with
    | inr up => up
    | inl _ => false
    end.
Proof.
  unfold checkHealth.
  now destruct (health net (healthRequest base)) as [t|up].
Qed.

Lemma health_cases (net : Network) (req : Request) :
  (exists t, net req = inl t /\ health net req = inl t)
  \/ (exists res, net req = inr res /\ ok res = false
                  /\ health net req = inl (ErrorInstance "Health check failed"))
  \/ (exists res t, net req = inr res /\ ok res = true /\ json res = inl t
                    /\ health net req = inl t)
  \/ (exists res body, net req = inr res /\ ok res = true /\ json res = inr body
                       /\ health net req
                          = inr (z.success (HealthResponseSchema (Some body)))).
Proof.
  unfold health, bind.
  destruct (net req) as [t|res]; [left; eauto|]. right.
  destruct (ok res) eqn:Hok; cbn [negb]; [|left; eauto].
  right. destruct (json res) as [t|body] eqn:Hj; [left|right]; eauto 7.
Qed.

(** C6: once a health poll has settled, the service is marked up
    exactly when the request was answered with an ok status and a JSON
    body that is an object whose [status] is the string "ok"; a failed
    fetch, a status that is not ok, a body that is not JSON or a body
    the schema refuses all mark it offline. *)
Theorem C6_health_poll_marks_liveness
        (base : string) (now : Date) (net : Network) (st : State) :
  let req := healthRequest base in
  let st' := run (checkHealth base true now net) st in
  (isModalUp st' = true
   <-> exists res o,
       net req = inr res /\ ok res = true /\ json res = inr (JObject o)
       /\ getProp "status" o = Some (JString "ok"))
  /\ (isModalUp st' = false
      <-> (exists t, net req = inl t)
          \/ exists res,
             net req = inr res
             /\ (ok res = false
                 \/ (exists t, json res = inl t)
                 \/ exists body,
                    json res = inr body
                    /\ z.success (HealthResponseSchema (Some body)) = false)).
Proof.
  intros req st'. subst st'. rewrite isModalUp_after_check. fold req.
  destruct (health_cases net req)
    as [(t & Hn & Hh)
       | [(res & Hn & Hok & Hh)
         | [(res & t & Hn & Hok & Hj & Hh)
           | (res & body & Hn & Hok & Hj & Hh)]]];
    rewrite Hh.
  - split; split; try (intros H; discriminate H); try reflexivity.
    + intros (res & o & H & _). congruence.
    + intros _. left. eauto.
  - split; split; try (intros H; discriminate H); try reflexivity.
    + intros (res' & o & H & Hok' & _). congruence.
    + intros _. right. exists res. auto.
  - split; split; try (intros H; discriminate H); try reflexivity.
    + intros (res' & o & H & _ & Hj' & _). congruence.
    + intros _. right. exists res. split; [exact Hn|]. right. left. eauto.
  - split.
    + rewrite HealthResponseSchema_iff. split.
      * intros (o & -> & Hs). eauto 6.
      * intros (res' & o & H & _ & Hj' & Hs).
        assert (res' = res) as -> by congruence.
        exists o. split; [congruence | exact Hs].
    + split.
      * intros Hs. right. exists res. eauto 7.
      * intros [(t & H)|(res' & H & Hcase)]; [congruence|].
        assert (res' = res) as -> by congruence.
        destruct Hcase as [H'|[(t & H')|(body' & H' & Hs)]]; congruence.
Qed.

Example health_ok :
  isModalUp (run (checkHealth "https://demo.modal.run" true 7%N
                    (respond 200 (JObject [("status", JString "ok")])))
                 initialState) = true.
Proof. reflexivity. Qed.

Example health_wrong_literal :
  isModalUp (run (checkHealth "https://demo.modal.run" true 7%N
                    (respond 200 (JObject [("status", JString "OK")])))
                 initialState) = false.
Proof. reflexivity. Qed.

(* ================================================================= *)
(** ** The base URL *)

Lemma baseUrl_with_slash (raw : string) :
  baseUrl (Some (raw ++ "/")%string) = raw.
Proof. apply replaceTrailingSlash_app. Qed.

Lemma baseUrl_without_slash (raw : string) :
  JsString.endsWith raw "/" = false -> baseUrl (Some raw) = raw.
Proof. apply replaceTrailingSlash_id. Qed.

(** C10: the base URL loses one trailing slash and no more.  For a
    configured value that does not end in "/", that value and the
    value followed by one "/" give the same base URL, hence the same
    /health, /analyze and /video/{id} URLs and the same behaviour of
    every handler; the value followed by two slashes keeps one. *)
Theorem C10_single_trailing_slash (raw : string) :
  JsString.endsWith raw "/" = false ->
  baseUrl (Some (raw ++ "/")%string) = baseUrl (Some raw)
  /\ healthUrl (baseUrl (Some (raw ++ "/")%string)) = healthUrl (baseUrl (Some raw))
  /\ analyzeUrl (baseUrl (Some (raw ++ "/")%string)) = analyzeUrl (baseUrl (Some raw))
  /\ (forall i, videoUrlOf (baseUrl (Some (raw ++ "/")%string)) i
                = videoUrlOf (baseUrl (Some raw)) i)
  /\ (forall st ev, handle (Some (raw ++ "/")%string) st ev = handle (Some raw) st ev)
  /\ baseUrl (Some (raw ++ "//")%string) = (raw ++ "/")%string.
Proof.
  intros Hraw.
  assert (baseUrl (Some (raw ++ "/")%string) = baseUrl (Some raw)) as Heq.
  { now rewrite baseUrl_with_slash, baseUrl_without_slash. }
  split; [exact Heq|]. rewrite Heq.
  repeat split.
  - intros st ev. destruct ev; cbn [handle]; now rewrite ?Heq.
  - change (raw ++ "//")%string with (raw ++ ("/" ++ "/"))%string.
    rewrite <- string_app_assoc. apply baseUrl_with_slash.
Qed.

Lemma C10_witness :
  baseUrl (Some "https://demo.modal.run/") = baseUrl (Some "https://demo.modal.run")
  /\ baseUrl (Some "https://demo.modal.run//") = "https://demo.modal.run/".
Proof.
  pose proof (C10_single_trailing_slash "https://demo.modal.run" eq_refl)
    as (H1 & _ & _ & _ & _ & H6).
  split; [exact H1 | exact H6].
Defined.

(* ================================================================= *)
(** ** Further properties of the handlers *)

Lemma onUpload_split (base : string) (selected : option File) (net : Network) :
  onUpload base selected net
  = uploadStart base selected
    ++ List.concat (map (fun req => uploadSettle req (net req))
                   (requests (uploadStart base selected))).
Proof.
  destruct selected as [f|]; [|reflexivity].
  unfold onUpload, uploadStart.
  destruct (JsString.isEmpty base); [reflexivity|].
  cbn [requests map List.concat]. rewrite app_nil_r. reflexivity.
Qed.

Lemma checkHealth_split (base : string) (isMounted : bool) (now : Date)
      (net : Network) :
  checkHealth base isMounted now net
  = healthStart base
    ++ healthSettle (healthRequest base) (net (healthRequest base)) isMounted now.
Proof. reflexivity. Qed.

Lemma run_app (e1 e2 : list Effect) (st : State) :
  run (e1 ++ e2) st = run e2 (run e1 st).
Proof. apply fold_left_app. Qed.

(** What the settling half of [onUpload] does to a state. *)
Lemma uploadSettle_state (req : Request) (outcome : Attempt Response) (st : State) :
  let st' := run (uploadSettle req outcome) st in
  loading st' = false
  /\ file st' = file st
  /\ isModalUp st' = isModalUp st
  /\ isChecking st' = isChecking st
  /\ lastCheckedAt st' = lastCheckedAt st
  /\ match analyze (fun _ => outcome) req with
     | inr data => response st' = Some data /\ error st' = error st
     | inl t => response st' = response st /\ error st' = Some (thrownMessage t)
     end.
Proof.
  unfold uploadSettle.
  destruct (analyze (fun _ => outcome) req) as [[m|]|data]; cbn; repeat split.
Qed.



Section UploadSent.

Variables (env : option string) (st : State) (f : File) (net : Network).

Hypothesis selected : file st = Some f.
Hypothesis configured : JsString.isEmpty (baseUrl env) = false.

#[local] Abbreviation req := (analyzeRequest (baseUrl env) f).
#[local] Abbreviation st' := (step env st (Upload net)).




End UploadSent.



(* ----------------------------------------------------------------- *)
(** *** The base URL, continued *)

Lemma replaceTrailingSlash_empty (raw : string) :
  JsString.replaceTrailingSlash raw = "" <-> raw = "" \/ raw = "/".
Proof.
  destruct raw as [|c rest]; cbn.
  - split; auto.
  - destruct (Ascii.eqb_spec c "/"%char) as [->|Hne]; cbn.
    + destruct rest; cbn; split; auto; try discriminate.
      intros [H|H]; discriminate.
    + split; [discriminate|]. intros [H|H]; [discriminate|].
      injection H as H _. contradiction.
Qed.

Lemma baseUrl_empty_iff (env : option string) :
  JsString.isEmpty (baseUrl env) = true
  <-> env = None \/ env = Some "" \/ env = Some "/".
Proof.
  assert (forall s, JsString.isEmpty s = true <-> s = "") as Hempty.
  { intros [|c s]; cbn; split; auto; discriminate. }
  rewrite Hempty. unfold baseUrl. destruct env as [raw|].
  - rewrite replaceTrailingSlash_empty. split.
    + intros [->| ->]; auto.
    + intros [H|[H|H]]; [discriminate | injection H as -> | injection H as ->]; auto.
  - cbn. split; auto.
Qed.

(** X4: the page treats the base URL as missing exactly when the
    environment variable is unset, empty, or a lone slash. *)
Theorem baseUrl_missing_iff (env : option string) :
  JsString.isEmpty (baseUrl env) = true
  <-> env = None \/ env = Some "" \/ env = Some "/".
Proof. apply baseUrl_empty_iff. Qed.

(** X5: the base URL is the configured value, or the configured value
    without its last character when that is a slash; it still ends in
    a slash exactly when the configured value ends in two. *)
Theorem baseUrl_shape (raw : string) :
  (if JsString.endsWith raw "/"
   then raw = (baseUrl (Some raw) ++ "/")%string
   else baseUrl (Some raw) = raw)
  /\ JsString.endsWith (baseUrl (Some raw)) "/" = JsString.endsWith raw "//".
Proof.
  destruct (JsString.endsWith raw "/") eqn:E.
  - apply endsWith_iff in E as [front ->]. rewrite baseUrl_with_slash.
    split; [reflexivity|].
    destruct (JsString.endsWith front "/") eqn:E1;
      destruct (JsString.endsWith (front ++ "/") "//") eqn:E2; try reflexivity;
      exfalso.
    + apply endsWith_iff in E1 as [g ->].
      assert (JsString.endsWith ((g ++ "/") ++ "/") "//" = true) as H.
      { apply endsWith_iff. exists g. now rewrite string_app_assoc. }
      congruence.
    + apply endsWith_iff in E2 as [g Hg].
      assert (front = (g ++ "/")%string) as ->.
      { rewrite <- (replaceTrailingSlash_app front), Hg.
        change "//" with ("/" ++ "/")%string.
        rewrite <- string_app_assoc. apply replaceTrailingSlash_app. }
      assert (JsString.endsWith (g ++ "/") "/" = true) as H
          by (apply endsWith_iff; eauto).
      congruence.
  - rewrite (baseUrl_without_slash raw E). split; [reflexivity|].
    rewrite E. symmetry.
    destruct (JsString.endsWith raw "//") eqn:E2; [|reflexivity].
    apply endsWith_iff in E2 as [g ->].
    assert (JsString.endsWith (g ++ "//") "/" = true) as H.
    { apply endsWith_iff. exists (g ++ "/")%string.
      now rewrite string_app_assoc. }
    congruence.
Qed.

(** X6: with a file selected and the base URL missing, an upload sends
    nothing: it only sets the error to the missing-variable message;
    the stored response, the loading flag and the file stay as they
    were. *)
Theorem upload_without_base_url
        (env : option string) (st : State) (f : File) (net : Network) :
  file st = Some f ->
  env = None \/ env = Some "" \/ env = Some "/" ->
  let st' := step env st (Upload net) in
  requests (handle env st (Upload net)) = []
  /\ error st' = Some missingBaseUrl
  /\ shownError st' = Some missingBaseUrl
  /\ response st' = response st
  /\ loading st' = loading st
  /\ file st' = Some f.
Proof.
  intros Hfile Henv st'. apply baseUrl_empty_iff in Henv.
  subst st'. unfold step. cbn [handle]. unfold onUpload.
  rewrite Hfile, Henv. cbn. rewrite Hfile. repeat split.
Qed.

Lemma upload_without_base_url_witness :
  let st := step (Some "/") initialState (FileChange (Some sampleFile)) in
  requests (handle (Some "/") st (Upload (respond 200 sampleBody))) = []
  /\ shownError (step (Some "/") st (Upload (respond 200 sampleBody)))
     = Some missingBaseUrl.
Proof.
  intros st.
  pose proof (upload_without_base_url (Some "/") st sampleFile
                (respond 200 sampleBody) eq_refl (or_intror (or_intror eq_refl)))
    as (H1 & _ & H3 & _).
  split; [exact H1 | exact H3].
Defined.

(* ----------------------------------------------------------------- *)
(** *** File selection, continued *)

Lemma validFile_iff (f : File) : validFile f <-> safeParseFile f = [].
Proof.
  unfold validFile. rewrite <- sizeCheck_iff, <- typeCheck_iff.
  file_cases f; rewrite Hparse, Hsize, Htype; split;
    try reflexivity; try discriminate; try (intros [A B]; discriminate); auto.
Qed.

(** X7: a selected file is kept exactly when it is at most 10485760 bytes
    and is a video by type or by its ".mp4" name; it is then kept
    without an error.  Otherwise the selection is dropped.  In both
    cases the loading flag and the health indicators are untouched. *)
Theorem selection_kept_iff_valid (f : File) (st : State) :
  let st' := run (onFileChange (Some f)) st in
  (file st' = Some f <-> validFile f)
  /\ (file st' = None <-> ~ validFile f)
  /\ (error st' = None <-> validFile f)
  /\ loading st' = loading st
  /\ isModalUp st' = isModalUp st
  /\ isChecking st' = isChecking st
  /\ lastCheckedAt st' = lastCheckedAt st.
Proof.
  cbv zeta. rewrite validFile_iff.
  destruct (safeParseFile f) as [|m ms] eqn:E.
  - rewrite (onFileChange_accept f E). cbn.
    repeat split; auto; try discriminate. intros H; now elim H.
  - rewrite (onFileChange_reject f _ _ E). cbn.
    repeat split; auto; try discriminate.
Qed.

(** X8: the error a selection leaves is null or one of the two messages
    of [FileSchema]; the fallback "Invalid file." is never shown.  The
    type message is the error exactly when the size is within the
    limit and the type check fails: a file that is both too large and
    not a video is reported as too large. *)
Theorem selection_error_messages (selected : option File) (st : State) :
  let st' := run (onFileChange selected) st in
  (error st' = None \/ error st' = Some sizeMessage
   \/ error st' = Some typeMessage)
  /\ error st' <> Some "Invalid file."
  /\ (error st' = Some typeMessage
      <-> exists f, selected = Some f
                    /\ sizeCheck f = true /\ typeCheck f = false).
Proof.
  cbv zeta. destruct selected as [f|].
  - file_cases f.
    + rewrite (onFileChange_accept f Hparse). cbn.
      repeat split; auto; try discriminate.
      intros (f' & Hf & _ & Ht). injection Hf as <-. congruence.
    + rewrite (onFileChange_reject f _ _ Hparse). cbn.
      repeat split; auto; try discriminate. eauto.
    + rewrite (onFileChange_reject f _ _ Hparse). cbn.
      repeat split; auto; try discriminate.
      intros (f' & Hf & Hs & _). injection Hf as <-. congruence.
    + rewrite (onFileChange_reject f _ _ Hparse). cbn.
      repeat split; auto; try discriminate.
      intros (f' & Hf & Hs & _). injection Hf as <-. congruence.
  - cbn. repeat split; auto; try discriminate.
    intros (f' & Hf & _). discriminate.
Qed.

(* ----------------------------------------------------------------- *)
(** *** Health polling, continued *)

(** X9: every health check sends exactly one request: a GET of the health
    URL that bypasses the cache.  While the component is mounted, the
    check ends with the time of the check recorded and the checking
    flag cleared, whatever the outcome; the file, the error, the
    loading flag and the response are never touched. *)
Theorem checkHealth_bookkeeping
        (base : string) (isMounted : bool) (now : Date) (net : Network)
        (st : State) :
  let effects := checkHealth base isMounted now net in
  requests effects = [healthRequest base]
  /\ url (healthRequest base) = (base ++ "/health")%string
  /\ method (healthRequest base) = GET
  /\ noStore (healthRequest base) = true
  /\ file (run effects st) = file st
  /\ error (run effects st) = error st
  /\ loading (run effects st) = loading st
  /\ response (run effects st) = response st
  /\ lastCheckedAt (run (checkHealth base true now net) st) = Some now
  /\ isChecking (run (checkHealth base true now net) st) = false.
Proof.
  cbv zeta. unfold checkHealth.
  destruct (health net (healthRequest base)) as [t|up], isMounted;
    cbn; repeat split.
Qed.

(** X10: a health check that settles after the component was unmounted
    changes neither the liveness mark nor the time of the last check;
    the checking flag it raised at the start stays raised. *)
Theorem checkHealth_after_unmount
        (base : string) (now : Date) (net : Network) (st : State) :
  let st' := run (checkHealth base false now net) st in
  isModalUp st' = isModalUp st
  /\ lastCheckedAt st' = lastCheckedAt st
  /\ isChecking st' = true.
Proof.
  cbv zeta. unfold checkHealth.
  destruct (health net (healthRequest base)) as [t|up]; cbn; repeat split.
Qed.

(* ----------------------------------------------------------------- *)
(** *** Requests *)

(** X11: an event sends at most one request, and none when the base URL is
    missing or the event is a file selection.  A request is either
    the health request or the analyze request for the file currently
    selected; the page itself never fetches a video URL. *)
Theorem requests_of_event (env : option string) (st : State) (ev : Event) :
  let sent := requests (handle env st ev) in
  (sent = []
   \/ sent = [healthRequest (baseUrl env)]
   \/ exists f, file st = Some f /\ sent = [analyzeRequest (baseUrl env) f])
  /\ (JsString.isEmpty (baseUrl env) = true -> sent = [])
  /\ (forall selected, ev = FileChange selected -> sent = []).
Proof.
  cbv zeta. destruct ev as [selected|net|now net]; cbn [handle].
  - assert (requests (onFileChange selected) = []) as ->.
    { destruct selected as [f|]; [|reflexivity].
      destruct (safeParseFile f) as [|m ms] eqn:E.
      - now rewrite (onFileChange_accept f E).
      - now rewrite (onFileChange_reject f _ _ E). }
    auto.
  - destruct (file st) as [f|] eqn:Hf; [|cbn; repeat split; auto; discriminate].
    destruct (JsString.isEmpty (baseUrl env)) eqn:Hb.
    + unfold onUpload. rewrite Hb. cbn. repeat split; auto; discriminate.
    + rewrite (onUpload_sent _ f net Hb).
      assert (forall e, requests
                ([setLoading true; setError None; setResponse None;
                  fetch (analyzeRequest (baseUrl env) f)]
                 ++ e ++ [setLoading false])
              = analyzeRequest (baseUrl env) f :: requests (e ++ [setLoading false]))
        as Hreq by reflexivity.
      rewrite Hreq.
      destruct (analyze net (analyzeRequest (baseUrl env) f)) as [[m|]|data];
        cbn; repeat split; try discriminate; eauto.
  - unfold healthEffect, checkHealth.
    destruct (JsString.isEmpty (baseUrl env)) eqn:Hb.
    + cbn. repeat split; auto; discriminate.
    + destruct (health net (healthRequest (baseUrl env))) as [t|up];
        cbn; repeat split; auto; discriminate.
Qed.


(* ================================================================= *)
(** ** The page with requests in flight *)

Lemma uploadsInFlight_app (l l' : list Pending) :
  uploadsInFlight (l ++ l') = uploadsInFlight l + uploadsInFlight l'.
Proof. unfold uploadsInFlight. now rewrite filter_app, List.length_app. Qed.

Lemma uploadsInFlight_dropNth (l : list Pending) (n : nat) (x : Pending) :
  nth_error l n = Some x ->
  uploadsInFlight l
  = (if isUpload x then 1 else 0) + uploadsInFlight (dropNth n l).
Proof.
  revert n; induction l as [|y l IH]; intros [|n] H; try discriminate.
  - injection H as ->. unfold dropNth, uploadsInFlight. cbn.
    destruct (isUpload x); reflexivity.
  - apply IH in H. unfold dropNth, uploadsInFlight in *. cbn.
    destruct (isUpload y), (isUpload x); cbn in *; lia.
Qed.

Lemma In_dropNth {A} (l : list A) (n : nat) (y : A) :
  In y (dropNth n l) -> In y l.
Proof.
  unfold dropNth. intros H. rewrite <- (firstn_skipn n l).
  apply in_app_or in H as [H|H]; apply in_or_app; [left; exact H|right].
  rewrite <- (firstn_skipn 1 (skipn n l)), skipn_skipn.
  apply in_or_app. right. exact H.
Qed.

Lemma onFileChange_state (selected : option File) (st : State) :
  let st' := run (onFileChange selected) st in
  response st' = None
  /\ loading st' = loading st
  /\ isModalUp st' = isModalUp st
  /\ (forall f, file st' = Some f -> safeParseFile f = []).
Proof.
  cbv zeta. destruct selected as [f0|].
  - destruct (safeParseFile f0) as [|m ms] eqn:E.
    + rewrite (onFileChange_accept f0 E). cbn. repeat split.
      intros f H. injection H as <-. exact E.
    + rewrite (onFileChange_reject f0 _ _ E). cbn. repeat split. discriminate.
  - cbn. repeat split. discriminate.
Qed.

Lemma healthSettle_state (req : Request) (outcome : Attempt Response)
      (isMounted : bool) (now : Date) (st : State) :
  let st' := run (healthSettle req outcome isMounted now) st in
  file st' = file st /\ error st' = error st
  /\ loading st' = loading st /\ response st' = response st.
Proof.
  cbv zeta. unfold healthSettle.
  destruct (health (fun _ => outcome) req) as [t|up], isMounted;
    cbn; repeat split.
Qed.

Lemma select_preserves (env : option string) (p : Page) (selected : option File) :
  pageInvariant env p -> pageInvariant env (act env p (select selected)).
Proof.
  intros [Hfile Hup Hpoll Hresp Hunconf].
  destruct (onFileChange_state selected (current p)) as (Hr & Hl & Hm & Hf).
  constructor; cbn [act current inFlight]; auto.
  - rewrite Hr. discriminate.
  - intros Hb. destruct (Hunconf Hb) as (H1 & H2 & _).
    rewrite Hm. auto.
Qed.

Lemma click_preserves (env : option string) (p : Page) :
  pageInvariant env p -> pageInvariant env (act env p click).
Proof.
  intros Hinv. pose proof Hinv as [Hfile Hup Hpoll Hresp Hunconf].
  cbn [act].
  destruct (file (current p)) as [f|] eqn:Ef.
  2:{ cbn [uploadStart requests map run fold_left]. rewrite app_nil_r.
      now destruct p. }
  cbn [uploadStart].
  destruct (JsString.isEmpty (baseUrl env)) eqn:Hb.
  - cbn [requests map]. rewrite app_nil_r.
    constructor; cbn; rewrite ?Ef; auto.
  - cbn [requests map].
    constructor; cbn [current inFlight].
    + cbn. rewrite Ef. exact Hfile.
    + intros req Hin. apply in_app_or in Hin as [Hin|[Hin|[]]]; [auto|].
      injection Hin as <-. exists f. split; [reflexivity | now apply Hfile].
    + intros req Hin. apply in_app_or in Hin as [Hin|[Hin|[]]]; [auto|].
      discriminate.
    + cbn. intros r H. discriminate H.
    + intros H. congruence.
Qed.

Lemma poll_preserves (env : option string) (p : Page) :
  pageInvariant env p -> pageInvariant env (act env p poll).
Proof.
  intros [Hfile Hup Hpoll Hresp Hunconf].
  cbn [act]. destruct (JsString.isEmpty (baseUrl env)) eqn:Hb.
  - cbn [requests map]. rewrite app_nil_r.
    constructor; cbn; auto.
    intros _. destruct (Hunconf eq_refl) as (H1 & _ & H3). auto.
  - unfold healthStart. cbn [requests map].
    constructor; cbn [current inFlight]; cbn; auto.
    + intros req Hin. apply in_app_or in Hin as [Hin|[Hin|[]]]; [auto|].
      discriminate.
    + intros req Hin. apply in_app_or in Hin as [Hin|[Hin|[]]]; [auto|].
      now injection Hin as <-.
    + intros H. congruence.
Qed.

Lemma settle_preserves (env : option string) (p : Page)
      (n : nat) (outcome : Attempt Response) (now : Date) :
  pageInvariant env p -> pageInvariant env (act env p (settle n outcome now)).
Proof.
  intros Hinv. pose proof Hinv as [Hfile Hup Hpoll Hresp Hunconf].
  cbn [act]. destruct (nth_error (inFlight p) n) as [[req|req]|] eqn:En;
    [| |exact Hinv].
  - destruct (uploadSettle_state req outcome (current p))
      as (Hl & Hf & Hm & _ & _ & Hcase).
    constructor; cbn [current inFlight].
    + rewrite Hf. exact Hfile.
    + intros r Hin. apply Hup. exact (In_dropNth _ _ _ Hin).
    + intros r Hin. apply Hpoll. exact (In_dropNth _ _ _ Hin).
    + intros r Hr.
      destruct (analyze (fun _ => outcome) req) as [t|data] eqn:Ean;
        destruct Hcase as [Hresp' _]; rewrite Hresp' in Hr.
      * now apply Hresp.
      * injection Hr as <-.
        apply analyze_inr in Ean as (res & body & _ & _ & _ & Hb). eauto.
    + intros Hb. destruct (Hunconf Hb) as (H1 & _). rewrite H1 in En.
      destruct n; discriminate.
  - destruct (healthSettle_state req outcome true now (current p))
      as (Hf & _ & Hl & Hr).
    constructor; cbn [current inFlight].
    + rewrite Hf. exact Hfile.
    + intros r Hin. apply Hup. exact (In_dropNth _ _ _ Hin).
    + intros r Hin. apply Hpoll. exact (In_dropNth _ _ _ Hin).
    + rewrite Hr. exact Hresp.
    + intros Hb. destruct (Hunconf Hb) as (H1 & _). rewrite H1 in En.
      destruct n; discriminate.
Qed.

Lemma initialPage_invariant (env : option string) : pageInvariant env initialPage.
Proof. constructor; cbn; auto; try discriminate; intros req []. Qed.

Lemma reachablePage_invariant (env : option string) (p : Page) :
  reachablePage env p -> pageInvariant env p.
Proof.
  induction 1 as [|p a Hreach IH]; [apply initialPage_invariant|].
  destruct a as [selected| | |n outcome now].
  - now apply select_preserves.
  - now apply click_preserves.
  - now apply poll_preserves.
  - now apply settle_preserves.
Qed.

Lemma nth_error_last {A} (l : list A) (x : A) :
  nth_error (l ++ [x]) (List.length l) = Some x.
Proof. rewrite nth_error_app2, Nat.sub_diag by lia. reflexivity. Qed.

Lemma dropNth_last {A} (l : list A) (x : A) :
  dropNth (List.length l) (l ++ [x]) = l.
Proof.
  unfold dropNth.
  rewrite firstn_app, Nat.sub_diag, firstn_all, skipn_all2
    by (rewrite List.length_app; cbn; lia).
  cbn. now rewrite !app_nil_r.
Qed.

(** X14: only validated files are selected or sent: in every page the
    selected file, and the file of every upload in flight, is at most
    10485760 bytes and a video by type or name; every upload in
    flight is the analyze request and every poll in flight the health
    request of the configured base URL. *)
Theorem only_valid_files_are_sent (env : option string) (p : Page) :
  reachablePage env p ->
  (forall f, file (current p) = Some f -> validFile f)
  /\ (forall req, In (pendingUpload req) (inFlight p) ->
      exists f, req = analyzeRequest (baseUrl env) f /\ validFile f)
  /\ (forall req, In (pendingHealth req) (inFlight p) ->
      req = healthRequest (baseUrl env)).
Proof.
  intros Hreach.
  apply reachablePage_invariant in Hreach as [Hfile Hup Hpoll _ _].
  split; [|split].
  - intros f Hf. apply validFile_iff. now apply Hfile.
  - intros req Hin. destruct (Hup req Hin) as (f & -> & Hf).
    exists f. split; [reflexivity | now apply validFile_iff].
  - exact Hpoll.
Qed.

Lemma only_valid_files_are_sent_witness :
  let p := act sampleEnv (act sampleEnv initialPage (select (Some sampleFile))) click in
  inFlight p = [pendingUpload (analyzeRequest "https://demo.modal.run" sampleFile)]
  /\ exists f, analyzeRequest "https://demo.modal.run" sampleFile
               = analyzeRequest (baseUrl sampleEnv) f /\ validFile f.
Proof.
  intros p. split; [reflexivity|].
  exact (proj1 (proj2 (only_valid_files_are_sent sampleEnv p
                         (page_act _ _ _ (page_act _ _ _ (page_init _)))))
               (analyzeRequest "https://demo.modal.run" sampleFile)
               (or_introl eq_refl)).
Defined.

(** X15: whatever response the page holds, also when events and settling
    requests interleave, came out of [AnalyzeResponseSchema]: its id
    is not empty, and its metadata has the properties the schema
    checks. *)
Theorem stored_response_is_validated
        (env : option string) (p : Page) (r : AnalyzeResponse) :
  reachablePage env p ->
  response (current p) = Some r ->
  id r <> "" /\ acceptedMetadata (metadata r) = true
  /\ videoUrl (baseUrl env) (current p)
     = Some (baseUrl env ++ "/video/" ++ id r)%string.
Proof.
  intros Hreach Hr.
  apply reachablePage_invariant in Hreach as [_ _ _ Hresp _].
  destruct (Hresp r Hr) as [body Hb].
  apply AnalyzeResponseSchema_iff in Hb as (_ & _ & _ & _ & Hne & _ & _ & Ha).
  unfold videoUrl. rewrite Hr. auto.
Qed.

(** X16: without a base URL the page stays quiet: nothing is ever in
    flight, the service is never marked up, and no response is ever
    stored. *)
Theorem unconfigured_page_is_quiet (env : option string) (p : Page) :
  reachablePage env p ->
  env = None \/ env = Some "" \/ env = Some "/" ->
  inFlight p = []
  /\ isModalUp (current p) = false
  /\ response (current p) = None.
Proof.
  intros Hreach Henv. apply baseUrl_empty_iff in Henv.
  apply reachablePage_invariant in Hreach as [_ _ _ _ Hunconf]. auto.
Qed.

Lemma unconfigured_page_is_quiet_witness :
  let p := act None (act None (act None initialPage poll)
                         (select (Some sampleFile))) click in
  inFlight p = [] /\ isModalUp (current p) = false.
Proof.
  intros p.
  pose proof (unconfigured_page_is_quiet None p
                (page_act _ _ _ (page_act _ _ _ (page_act _ _ _ (page_init _))))
                (or_introl eq_refl)) as (H1 & H2 & _).
  split; [exact H1 | exact H2].
Defined.


Lemma stored_response_is_validated_witness :
  let p := act sampleEnv
             (act sampleEnv (act sampleEnv initialPage (select (Some sampleFile))) click)
             (settle 0 (respond 200 sampleBody (healthRequest "")) 0%N) in
  videoUrl (baseUrl sampleEnv) (current p)
  = Some "https://demo.modal.run/video/a1b2".
Proof.
  intros p.
  assert (response (current p)
          = Some {| id := "a1b2"; metadata := sampleMetadata |}) as Hr
      by (vm_compute; reflexivity).
  exact (proj2 (proj2 (stored_response_is_validated sampleEnv p _
                         (page_act _ _ _
                            (page_act _ _ _ (page_act _ _ _ (page_init _))))
                         Hr))).
Defined.

Section ClickAndSettle.

Variables (env : option string) (p : Page) (f : File).

Hypothesis configured : JsString.isEmpty (baseUrl env) = false.
Hypothesis idle : loading (current p) = false.
Hypothesis valid : validFile f.

#[local] Abbreviation req := (analyzeRequest (baseUrl env) f).
#[local] Abbreviation sent := (act env (act env p (select (Some f))) click).

Lemma sent_page :
  current sent
  = run [setLoading true; setError None; setResponse None; fetch req]
        (run (onFileChange (Some f)) (current p))
  /\ inFlight sent = inFlight p ++ [pendingUpload req].
Proof using configured valid.
  apply validFile_iff in valid.
  cbn [act current inFlight].
  rewrite (onFileChange_accept f valid). cbn [run fold_left perform file].
  cbn [uploadStart]. rewrite configured.
  cbn [current inFlight requests map]. split; reflexivity.
Qed.

(** X17: a response that arrives after the selection has changed is still
    stored.  Select a valid file, click upload, select something else
    (another file, an invalid file, or nothing) while the request is
    in flight: the new selection clears the response, and when the
    request then settles with an accepted body the page shows the
    earlier upload's metadata and video URL next to the new selection
    and whatever error the new selection produced. *)
Theorem late_response_survives_selection
        (selected : option File) (res : Response) (body : JSON)
        (r : AnalyzeResponse) (now : Date) :
  ok res = true ->
  json res = inr body ->
  AnalyzeResponseSchema (Some body) = Some r ->
  let changed := act env sent (select selected) in
  let settled :=
    act env changed (settle (List.length (inFlight p)) (inr res) now) in
  response (current changed) = None
  /\ response (current settled) = Some r
  /\ shownMetadata (current settled) = Some (metadata r)
  /\ videoUrl (baseUrl env) (current settled)
     = Some (baseUrl env ++ "/video/" ++ id r)%string
  /\ file (current settled) = file (current changed)
  /\ error (current settled) = error (current changed)
  /\ loading (current settled) = false
  /\ inFlight settled = inFlight p.
Proof using configured idle valid.
  intros Hok Hjson Hacc. cbv zeta.
  destruct sent_page as [Hcur Hfl].
  set (s := sent) in *. clearbody s.
  cbn [act current inFlight].
  split; [apply response_after_selection|].
  rewrite Hfl, nth_error_last, dropNth_last. cbn [current inFlight].
  assert (analyze (fun _ => inr res) req = inr r) as Han.
  { rewrite (analyze_ok_json _ req res body eq_refl Hok Hjson). now rewrite Hacc. }
  destruct (uploadSettle_state req (inr res)
              (run (onFileChange selected) (current s)))
    as (Hl & Hf & _ & _ & _ & Hcase).
  rewrite Han in Hcase. destruct Hcase as [Hr He].
  unfold shownMetadata, videoUrl. rewrite Hr, Hl, Hf, He.
  repeat split.
Qed.

(** The atomic reading of an upload is the asynchronous one with
    nothing in between. *)
Lemma start_then_settle_is_onUpload (net : Network) (now : Date) :
  let clicked := act env (act env p (select (Some f))) click in
  let settled :=
    act env clicked (settle (List.length (inFlight p)) (net req) now) in
  current settled
  = step env (step env (current p) (FileChange (Some f))) (Upload net)
  /\ inFlight settled = inFlight p.
Proof using configured valid.
  cbv zeta. destruct sent_page as [Hcur Hfl].
  set (s := sent) in *. clearbody s.
  cbn [act]. rewrite Hfl, nth_error_last, dropNth_last.
  cbn [current inFlight]. split; [|reflexivity].
  rewrite Hcur. unfold step at 1. cbn [handle].
  apply validFile_iff in valid.
  assert (file (step env (current p) (FileChange (Some f))) = Some f) as Hfile.
  { unfold step. cbn [handle]. now rewrite (onFileChange_accept f valid). }
  rewrite Hfile, onUpload_split. unfold uploadStart. rewrite configured.
  cbn [requests map List.concat]. rewrite app_nil_r, run_app.
  reflexivity.
Qed.

End ClickAndSettle.

Lemma sampleFile_valid : validFile sampleFile.
Proof. apply validFile_iff. reflexivity. Qed.

Lemma late_response_survives_selection_witness :
  let sent := act sampleEnv (act sampleEnv initialPage (select (Some sampleFile))) click in
  let changed := act sampleEnv sent (select None) in
  let settled :=
    act sampleEnv changed
        (settle 0 (inr {| statusCode := 200; text := inr ""; json := inr sampleBody |})
                0%N) in
  response (current changed) = None
  /\ file (current settled) = None
  /\ videoUrl (baseUrl sampleEnv) (current settled)
     = Some "https://demo.modal.run/video/a1b2".
Proof.
  intros sent changed settled.
  assert (AnalyzeResponseSchema (Some sampleBody)
          = Some {| id := "a1b2"; metadata := sampleMetadata |}) as Hacc
      by (vm_compute; reflexivity).
  pose proof (late_response_survives_selection
                sampleEnv initialPage sampleFile eq_refl eq_refl sampleFile_valid
                None {| statusCode := 200; text := inr ""; json := inr sampleBody |}
                sampleBody _ 0%N eq_refl eq_refl Hacc)
    as (H1 & _ & _ & H4 & H5 & _).
  split; [exact H1|]. split; [exact H5 | exact H4].
Defined.

(** The same for a health check. *)
Lemma start_then_settle_is_checkHealth
        (env : option string) (p : Page) (net : Network) (now : Date) :
  JsString.isEmpty (baseUrl env) = false ->
  let polled := act env p poll in
  let settled :=
    act env polled
        (settle (List.length (inFlight p)) (net (healthRequest (baseUrl env))) now) in
  current settled = step env (current p) (HealthPoll now net)
  /\ inFlight settled = inFlight p.
Proof.
  intros Hb. cbv zeta. cbn [act]. rewrite Hb. unfold healthStart.
  cbn [requests map inFlight current].
  rewrite nth_error_last, dropNth_last. cbn [current inFlight].
  split; [|reflexivity].
  unfold step. cbn [handle]. unfold healthEffect. rewrite Hb.
  rewrite checkHealth_split, run_app. reflexivity.
Qed.

(* ----------------------------------------------------------------- *)
(** *** The response schema, both ways *)

(** X20: [AnalyzeResponseSchema] accepts exactly the objects with a
    non-empty string [id] and a [metadata] object whose four numbers
    pass the checks; the data it returns are that id and those
    numbers, whatever other keys the two objects carry. *)
Theorem analyze_schema_accepts_exactly (body : JSON) :
  (z.success (AnalyzeResponseSchema (Some body)) = true
   <-> exists o mo i m,
       body = JObject o
       /\ getProp "id" o = Some (JString i) /\ i <> ""
       /\ getProp "metadata" o = Some (JObject mo)
       /\ carries mo m /\ acceptedMetadata m = true)
  /\ (forall o mo i m,
       body = JObject o ->
       getProp "id" o = Some (JString i) -> i <> "" ->
       getProp "metadata" o = Some (JObject mo) ->
       carries mo m -> acceptedMetadata m = true ->
       AnalyzeResponseSchema (Some body) = Some {| id := i; metadata := m |}).
Proof.
  assert (forall o mo i m,
       body = JObject o ->
       getProp "id" o = Some (JString i) -> i <> "" ->
       getProp "metadata" o = Some (JObject mo) ->
       carries mo m -> acceptedMetadata m = true ->
       AnalyzeResponseSchema (Some body) = Some {| id := i; metadata := m |})
    as Hcomplete.
  { intros o mo i m Hb Hi Hne Hm Hc Ha.
    apply AnalyzeResponseSchema_iff. exists o, mo. cbn. auto 7. }
  split; [|exact Hcomplete].
  split.
  - destruct (AnalyzeResponseSchema (Some body)) as [r|] eqn:E; [|discriminate].
    intros _. apply AnalyzeResponseSchema_iff in E
      as (o & mo & Hb & Hi & Hne & Hm & Hc & Ha).
    exists o, mo, (id r), (metadata r). auto 7.
  - intros (o & mo & i & m & Hb & Hi & Hne & Hm & Hc & Ha).
    now rewrite (Hcomplete o mo i m Hb Hi Hne Hm Hc Ha).
Qed.

(* ----------------------------------------------------------------- *)
(** *** An upload, from the call to the settling *)

(** X1: with a file selected and a base URL, [onUpload] starts by
    setting the loading flag, clearing the error and the response, and
    sending exactly one request, a POST of the selected file to the
    analyze URL.  When that request settles, whatever happened to the
    page in between, the loading flag is cleared, the selected file
    and the health indicators are left as they are at that moment, and
    exactly one of the two is written: a response, the error left as
    it is, or an error, the response left as it is. *)
Theorem upload_in_two_steps
        (env : option string) (p q : Page) (f : File)
        (n : nat) (outcome : Attempt Response) (now : Date) :
  file (current p) = Some f ->
  JsString.isEmpty (baseUrl env) = false ->
  nth_error (inFlight q) n
  = Some (pendingUpload (analyzeRequest (baseUrl env) f)) ->
  let req := analyzeRequest (baseUrl env) f in
  let started := act env p click in
  let settled := act env q (settle n outcome now) in
  inFlight started = inFlight p ++ [pendingUpload req]
  /\ url req = (baseUrl env ++ "/analyze")%string
  /\ method req = POST /\ formFile req = Some f
  /\ loading (current started) = true
  /\ error (current started) = None
  /\ response (current started) = None
  /\ file (current started) = Some f
  /\ inFlight settled = dropNth n (inFlight q)
  /\ loading (current settled) = false
  /\ file (current settled) = file (current q)
  /\ isModalUp (current settled) = isModalUp (current q)
  /\ isChecking (current settled) = isChecking (current q)
  /\ lastCheckedAt (current settled) = lastCheckedAt (current q)
  /\ ((exists r, response (current settled) = Some r
                 /\ error (current settled) = error (current q))
      \/ (exists m, error (current settled) = Some m
                    /\ response (current settled) = response (current q))).
Proof.
  intros Hfile Hb Hnth. cbv zeta.
  cbn [act]. rewrite Hfile, Hnth. cbn [uploadStart]. rewrite Hb.
  cbn [requests map current inFlight].
  split; [reflexivity|]. repeat (split; [reflexivity|]).
  split; [cbn; exact Hfile|]. split; [reflexivity|].
  destruct (uploadSettle_state (analyzeRequest (baseUrl env) f) outcome (current q))
    as (Hl & Hf & Hu & Hc & Ht & Hcase).
  rewrite Hl, Hf, Hu, Hc, Ht. repeat (split; [reflexivity|]).
  destruct (analyze (fun _ => outcome) (analyzeRequest (baseUrl env) f))
    as [t|data]; destruct Hcase as [Hr He]; [right|left]; eauto.
Qed.

Lemma upload_in_two_steps_witness :
  let p := act sampleEnv initialPage (select (Some sampleFile)) in
  let q := act sampleEnv p click in
  inFlight q = [pendingUpload (analyzeRequest "https://demo.modal.run" sampleFile)]
  /\ loading (current q) = true
  /\ loading (current (act sampleEnv q (settle 0 (inl OtherValue) 0%N))) = false.
Proof.
  intros p q.
  pose proof (upload_in_two_steps sampleEnv p q sampleFile 0 (inl OtherValue) 0%N
                eq_refl eq_refl eq_refl)
    as (H1 & _ & _ & _ & H5 & _ & _ & _ & _ & H10 & _).
  split; [exact H1|]. split; [exact H5 | exact H10].
Defined.

(* ----------------------------------------------------------------- *)
(** *** A selection and what follows it *)

Lemma uploadsInFlight_polls (rs : list Request) :
  uploadsInFlight (map pendingHealth rs) = 0.
Proof. induction rs as [|r rs IH]; [reflexivity | exact IH]. Qed.

(** With no upload in flight and no response stored, nothing but a
    call of [onUpload] can change either. *)
Lemma quiet_step (env : option string) (q : Page) (a : Action) :
  a <> click ->
  uploadsInFlight (inFlight q) = 0 ->
  response (current q) = None ->
  uploadsInFlight (inFlight (act env q a)) = 0
  /\ response (current (act env q a)) = None.
Proof.
  intros Hclick Hnone Hresp.
  destruct a as [selected| | |n outcome now]; [| contradiction | |];
    cbn [act].
  - cbn [current inFlight]. split; [exact Hnone|].
    apply response_after_selection.
  - cbn [current inFlight].
    rewrite uploadsInFlight_app, uploadsInFlight_polls, Hnone.
    split; [reflexivity|].
    destruct (JsString.isEmpty (baseUrl env)); exact Hresp.
  - destruct (nth_error (inFlight q) n) as [[req|req]|] eqn:En;
      [| |auto].
    + apply uploadsInFlight_dropNth in En. cbn in En. lia.
    + pose proof (uploadsInFlight_dropNth _ _ _ En) as Hcount.
      cbn in Hcount. cbn [current inFlight].
      destruct (healthSettle_state req outcome true now (current q))
        as (_ & _ & _ & Hr).
      rewrite Hr. split; [lia | exact Hresp].
Qed.

Lemma quiet_run (env : option string) (later : list Action) (q : Page) :
  Forall (fun a => a <> click) later ->
  uploadsInFlight (inFlight q) = 0 ->
  response (current q) = None ->
  response (current (fold_left (act env) later q)) = None.
Proof.
  intros Hlater. revert q.
  induction Hlater as [|a later Ha _ IH]; intros q Hnone Hresp; [exact Hresp|].
  cbn [fold_left]. destruct (quiet_step env q a Ha Hnone Hresp) as [H1 H2].
  now apply IH.
Qed.

(** C9, as the code has it: every file selection begins by setting
    the error and the previous analyze response to null, before the
    file is looked at, and sets no response afterwards.  So right
    after a selection (valid, invalid or empty) the page shows no
    metadata and no video URL, and the only error it can show is the
    one the new selection has just produced; and when no upload is in
    flight at the selection, none is shown until [onUpload] is called
    again, whatever selections, polls and settling requests follow. *)
Theorem C9_selection_clears_response
        (env : option string) (p : Page) (selected : option File)
        (later : list Action) :
  let chosen := act env p (select selected) in
  let final := fold_left (act env) later chosen in
  (exists rest,
      onFileChange selected = setError None :: setResponse None :: rest
      /\ forall v, ~ In (setResponse v) rest)
  /\ response (current chosen) = None
  /\ shownMetadata (current chosen) = None
  /\ videoUrl (baseUrl env) (current chosen) = None
  /\ (error (current chosen) = None
      \/ exists f, selected = Some f
                   /\ parseSuccess (safeParseFile f) = false
                   /\ error (current chosen)
                      = Some (hd "Invalid file." (safeParseFile f)))
  /\ (uploadsInFlight (inFlight p) = 0 ->
      Forall (fun a => a <> click) later ->
      response (current final) = None
      /\ shownMetadata (current final) = None
      /\ videoUrl (baseUrl env) (current final) = None).
Proof.
  cbv zeta.
  destruct (onFileChange_clears_first selected (current p) (baseUrl env))
    as (H1 & H2 & H3 & H4 & H5).
  cbv zeta in H2, H3, H4, H5. cbn [act current].
  repeat (split; [assumption|]).
  intros Hnone Hlater.
  assert (response
            (current (fold_left (act env) later
                        {| current := run (onFileChange selected) (current p);
                           inFlight := inFlight p |})) = None) as Hr.
  { apply quiet_run; [exact Hlater | exact Hnone | exact H2]. }
  unfold shownMetadata, videoUrl. rewrite Hr. repeat split.
Qed.

Lemma C9_witness :
  let answered :=
    act sampleEnv
        (act sampleEnv (act sampleEnv initialPage (select (Some sampleFile))) click)
        (settle 0 (respond 200 sampleBody (healthRequest "")) 0%N) in
  let later :=
    [poll;
     settle 0 (respond 200 (JObject [("status", JString "ok")]) (healthRequest "")) 9%N;
     select (Some sampleFile)] in
  response (current answered)
  = Some {| id := "a1b2"; metadata := sampleMetadata |}
  /\ response (current (fold_left (act sampleEnv) later
                          (act sampleEnv answered (select None)))) = None.
Proof.
  intros answered later.
  split; [vm_compute; reflexivity|].
  refine (proj1 (proj2 (proj2 (proj2 (proj2 (proj2
            (C9_selection_clears_response sampleEnv answered None later)))))
            eq_refl _)).
  repeat constructor; discriminate.
Defined.

(** C9, as stated, fails: a file is selected and its upload started;
    a second file is selected while the request is in flight, which
    clears the response; the request then settles, and the page shows
    the metadata and the video URL of the first upload. *)
Lemma C9_counterexample :
  let second := {| name := "second.mp4"; type := "video/mp4"; size := 2048 |} in
  let sent :=
    act sampleEnv (act sampleEnv initialPage (select (Some sampleFile))) click in
  let chosen := act sampleEnv sent (select (Some second)) in
  let settled :=
    act sampleEnv chosen (settle 0 (respond 200 sampleBody (healthRequest "")) 0%N) in
  inFlight sent = [pendingUpload (analyzeRequest "https://demo.modal.run" sampleFile)]
  /\ response (current chosen) = None
  /\ file (current settled) = Some second
  /\ shownMetadata (current settled) = Some sampleMetadata
  /\ videoUrl (baseUrl sampleEnv) (current settled)
     = Some "https://demo.modal.run/video/a1b2".
Proof. vm_compute. repeat split. Qed.
